(** * hbp_archive: a shallow embedding of [hbp_archive.py]

    The Python module is a client of a Swift object store.  Its functions
    are embedded as Rocq functions over an explicit state: the contents
    of the project's storage account, the cached container metadata, the
    [logging] output and the local file system.  Exceptions are values
    of [exn]; a call either returns or raises ([outcome]). *)

From Stdlib Require Import Ascii String QArith Qcanon.
From stdpp Require Import gmap strings list fin_maps sorting.

Local Open Scope string_scope.
Local Open Scope list_scope.

(** ** Python strings and [os.path] (posixpath) *)

Module PyStr.

Definition is_sep (c : ascii) : bool := Ascii.eqb c "/"%char.

(** [s.startswith(pre)] *)
Fixpoint startswith (s pre : string) : bool :=
  match pre, s with
  | EmptyString, _ => true
  | String a pre', String b s' => Ascii.eqb b a && startswith s' pre'
  | String _ _, EmptyString => false
  end.

(** [s[-1]]; [None] stands for the [IndexError] on the empty string *)
Fixpoint last_char (s : string) : option ascii :=
  match s with
  | EmptyString => None
  | String c EmptyString => Some c
  | String _ r => last_char r
  end.

(** [s.endswith("/")] *)
Definition endswith_sep (s : string) : bool :=
  match last_char s with
  | Some c => is_sep c
  | None => false
  end.

(** [(p[:i], p[i:])] for [i = p.rfind("/") + 1] *)
Fixpoint split_last (p : string) : string * string :=
  match p with
  | EmptyString => (EmptyString, EmptyString)
  | String c r =>
      match split_last r with
      | (EmptyString, t) =>
          if is_sep c then (String c EmptyString, r) else (EmptyString, String c r)
      | (h, t) => (String c h, t)
      end
  end.

(** [os.path.basename] *)
Definition basename (p : string) : string := snd (split_last p).

Fixpoint all_sep (s : string) : bool :=
  match s with
  | EmptyString => true
  | String c r => is_sep c && all_sep r
  end.

(** [s.rstrip("/")] *)
Fixpoint rstrip_sep (s : string) : string :=
  match s with
  | EmptyString => EmptyString
  | String c r =>
      match rstrip_sep r with
      | EmptyString => if is_sep c then EmptyString else String c EmptyString
      | r' => String c r'
      end
  end.

(** [os.path.dirname] *)
Definition dirname (p : string) : string :=
  let head := fst (split_last p) in
  match head with
  | EmptyString => head
  | _ => if all_sep head then head else rstrip_sep head
  end.

(** One round of the loop of [os.path.join]. *)
Definition join_step (path b : string) : string :=
  if startswith b "/" then b
  else match path with
       | EmptyString => b
       | _ => if endswith_sep path then path +:+ b else path +:+ "/" +:+ b
       end.

(** [os.path.join(a, b)] and [os.path.join(a, b, c)] *)
Definition join (a b : string) : string := join_step a b.
Definition join3 (a b c : string) : string := join_step (join_step a b) c.

(** [s.split(sep)] for a one-character separator *)
Fixpoint split (sep : ascii) (s : string) : list string :=
  match s with
  | EmptyString => [EmptyString]
  | String c r =>
      if Ascii.eqb c sep then EmptyString :: split sep r
      else match split sep r with
           | w :: ws => String c w :: ws
           | [] => [String c EmptyString]
           end
  end.

(** [sep.join(l)] *)
Fixpoint str_join (sep : string) (l : list string) : string :=
  match l with
  | [] => EmptyString
  | [x] => x
  | x :: r => x +:+ sep +:+ str_join sep r
  end.

(** [c in s] for a character *)
Fixpoint contains (c : ascii) (s : string) : bool :=
  match s with
  | EmptyString => false
  | String d r => Ascii.eqb d c || contains c r
  end.

End PyStr.

(** ** Exceptions and outcomes *)

Inductive exn : Type :=
| Exception_ (msg : string)          (* [raise Exception(msg)] *)
| ValueError (msg : string)
| KeyError (key : string)
| IOError (msg : string)
| IndexError
| TypeError
| AttributeError
| LookupError (encoding : string)    (* unknown codec *)
| UnicodeDecodeError
| AuthorizationFailure               (* keystoneauth1 *)
| ClientException (msg : string).    (* swiftclient *)

Inductive outcome (A : Type) : Type :=
| Returned (a : A)
| Raised (e : exn).
Arguments Returned {A} a.
Arguments Raised {A} e.

(** ** [scale_bytes] *)

(** The table [allowed_units]. *)
Definition allowed_units : list (string * Z) :=
  [("bytes", 1); ("kB", 1024); ("MB", 1048576); ("GB", 1073741824);
   ("TB", 1099511627776)]%Z.

Fixpoint dict_get {V : Type} (d : list (string * V)) (k : string) : option V :=
  match d with
  | [] => None
  | (k', v) :: r => if String.eqb k' k then Some v else dict_get r k
  end.

(** The text of [list(allowed_units.keys())] inside the error message. *)
(** [d[k] = v] on a dictionary kept in insertion order *)
Fixpoint dict_set {V : Type} (d : list (string * V)) (k : string) (v : V)
  : list (string * V) :=
  match d with
  | [] => [(k, v)]
  | (k', v') :: r => if String.eqb k' k then (k, v) :: r else (k', v') :: dict_set r k v
  end.

Definition allowed_units_msg : string :=
  "Units must be one of ['bytes', 'kB', 'MB', 'GB', 'TB']".

(** [value / scale] is true division ([from __future__ import division]);
    numbers are rationals here. *)
Definition scale_bytes (value : Qc) (units : string) : outcome Qc :=
  match dict_get allowed_units units with
  | None => Raised (ValueError allowed_units_msg)
  | Some scale => Returned (value / Q2Qc (inject_Z scale))%Qc
  end.


(** ** The storage account behind [project._connection]

    The Swift service is an external collaborator.  Its model: an account
    is a finite map from container names to containers; a container has
    metadata headers and a finite map from object keys to objects. *)

Record Obj : Type := {
  content_type : string;
  hash : string;
  last_modified : string;
  contents : list Byte.byte;
}.

Record Bucket : Type := {
  headers : gmap string string;
  objects : gmap string Obj;
}.

Definition with_objects (b : Bucket) (os : gmap string Obj) : Bucket :=
  {| headers := headers b; objects := os |}.


(** One entry of a container listing: the keyword arguments of [File]. *)
Record Item : Type := {
  item_name : string;
  item_bytes : nat;
  item_content_type : string;
  item_hash : string;
  item_last_modified : string;
}.

Module Swift.

Definition find_object (acc : gmap string Bucket) (container obj : string) : option Obj :=
  b ← acc !! container; objects b !! obj.

(** Headers of an object response. *)
Definition object_headers (o : Obj) : gmap string string :=
  {[ "content-type" := content_type o; "etag" := hash o;
     "last-modified" := last_modified o ]}.

(** A request for an object goes to the path
    [<account>/<container>/<object>], and the HTTP library removes the dot
    segments of a path before it sends it ([_remove_path_dot_segments] of
    urllib3, after RFC 3986).  [segments] are the segments below the
    account and [output] the segments kept so far, the last one first.
    [None]: the path climbs above the account. *)
Fixpoint remove_path_dot_segments (segments output : list string)
  : option (list string) :=
  match segments with
  | [] => Some (rev output)
  | segment :: rest =>
      if String.eqb segment "." then remove_path_dot_segments rest output
      else if String.eqb segment ".." then
        match output with
        | [] => None
        | _ :: output' => remove_path_dot_segments rest output'
        end
      else remove_path_dot_segments rest (segment :: output)
  end.

Definition dot_segment (segment : string) : bool :=
  String.eqb segment "." || String.eqb segment "..".

(** What the path of a request addresses. *)
Inductive target : Type :=
| ObjectAt (container obj : string)
| ContainerAt (container : string)
| AccountAt
| Elsewhere.

(** The server reads the container and the object off the path; with an
    empty object name the path is the container's. *)
Definition route (segments : list string) : target :=
  match segments with
  | [] => AccountAt
  | container :: rest =>
      match container, PyStr.str_join "/" rest with
      | EmptyString, EmptyString => AccountAt
      | EmptyString, _ => Elsewhere
      | _, EmptyString => ContainerAt container
      | _, obj => ObjectAt container obj
      end
  end.

(** A path that ended in a dot segment keeps a trailing slash. *)
Definition resolve (container obj : string) : target :=
  let segments := PyStr.split "/" (container +:+ "/" +:+ obj) in
  match remove_path_dot_segments segments [] with
  | None => Elsewhere
  | Some output =>
      route (if dot_segment (List.last segments EmptyString)
             then output ++ [EmptyString] else output)
  end.

(** [HEAD] on the path of an object.  The path of a container is
    answered by the container, the path of the account by the account. *)
Definition head_object (acc : gmap string Bucket) (container obj : string)
  : outcome (gmap string string) :=
  match resolve container obj with
  | ObjectAt c k =>
      match find_object acc c k with
      | Some o => Returned (object_headers o)
      | None => Raised (ClientException "Object HEAD failed")
      end
  | ContainerAt c =>
      match acc !! c with
      | Some b => Returned (headers b)
      | None => Raised (ClientException "Object HEAD failed")
      end
  | AccountAt => Returned ∅
  | Elsewhere => Raised (ClientException "Object HEAD failed")
  end.

Definition get_object (acc : gmap string Bucket) (container obj : string)
  : outcome (gmap string string * list Byte.byte) :=
  match find_object acc container obj with
  | Some o => Returned (object_headers o, contents o)
  | None => Raised (ClientException "Object GET failed")
  end.

(** The object the server keeps for an upload: the bytes are the bytes
    sent; the content type, hash and time stamp it records are its own
    ([server_put]). *)
Definition stored_object (server_put : string → list Byte.byte → Obj)
    (obj : string) (data : list Byte.byte) : Obj :=
  let o := server_put obj data in
  {| content_type := content_type o; hash := hash o; last_modified := last_modified o;
     contents := data |}.

(** [PUT] on the path of an object.  On the path of a container the
    request creates the container when there is none, and stores no
    object. *)
Definition put_object (server_put : string → list Byte.byte → Obj)
    (acc : gmap string Bucket) (container obj : string) (data : list Byte.byte)
  : outcome (gmap string Bucket) :=
  match resolve container obj with
  | ObjectAt c k =>
      match acc !! c with
      | Some b =>
          Returned (<[c := with_objects b (<[k := stored_object server_put k data]>
                                             (objects b))]> acc)
      | None => Raised (ClientException "Object PUT failed")
      end
  | ContainerAt c =>
      match acc !! c with
      | Some _ => Returned acc
      | None => Returned (<[c := {| headers := ∅; objects := ∅ |}]> acc)
      end
  | AccountAt | Elsewhere => Raised (ClientException "Object PUT failed")
  end.

(** [(s[:i], s[i+1:])] for the first ["/"] at [i]; [None] without one. *)
Fixpoint split_first (s : string) : option (string * string) :=
  match s with
  | EmptyString => None
  | String c r =>
      if PyStr.is_sep c then Some (EmptyString, r)
      else '(h, t) ← split_first r; Some (String c h, t)
  end.

(** The [Destination] header names a container and an object,
    ["/container/object"]; the leading slash is optional. *)
Definition split_destination (dest : string) : option (string * string) :=
  let d := match dest with
           | String c r => if PyStr.is_sep c then r else dest
           | EmptyString => dest
           end in
  match split_first d with
  | Some (EmptyString, _) => None
  | Some (_, EmptyString) => None
  | r => r
  end.

Definition copy_object (acc : gmap string Bucket) (container obj destination : string)
  : outcome (gmap string Bucket) :=
  match find_object acc container obj, split_destination destination with
  | Some o, Some (dc, dk) =>
      match acc !! dc with
      | Some b => Returned (<[dc := with_objects b (<[dk := o]> (objects b))]> acc)
      | None => Raised (ClientException "Object COPY failed")
      end
  | _, _ => Raised (ClientException "Object COPY failed")
  end.

Definition delete_object (acc : gmap string Bucket) (container obj : string)
  : outcome (gmap string Bucket) :=
  match acc !! container with
  | Some b =>
      match objects b !! obj with
      | Some _ => Returned (<[container := with_objects b (delete obj (objects b))]> acc)
      | None => Raised (ClientException "Object DELETE failed")
      end
  | None => Raised (ClientException "Object DELETE failed")
  end.

Definition head_container (acc : gmap string Bucket) (container : string)
  : outcome (gmap string string) :=
  match acc !! container with
  | Some b => Returned (headers b)
  | None => Raised (ClientException "Container HEAD failed")
  end.

Definition key_le (x y : string * Obj) : Prop := String.leb x.1 y.1 = true.

#[export] Instance key_le_dec x y : Decision (key_le x y).
Proof. unfold key_le. apply _. Defined.

Definition to_item (kv : string * Obj) : Item :=
  {| item_name := kv.1; item_bytes := length (contents kv.2);
     item_content_type := content_type kv.2; item_hash := hash kv.2;
     item_last_modified := last_modified kv.2 |}.

(** A listing is ordered by key. *)
Definition listing (b : Bucket) : list Item :=
  to_item <$> merge_sort key_le (map_to_list (objects b)).

Definition get_container (acc : gmap string Bucket) (container : string)
  : outcome (gmap string string * list Item) :=
  match acc !! container with
  | Some b => Returned (headers b, listing b)
  | None => Raised (ClientException "Container GET failed")
  end.



End Swift.


(** ** Program state *)

Inductive level : Type := ERROR | INFO.

Record State : Type := {
  account : gmap string Bucket;            (* the project's storage account *)
  _metadata : option (gmap string string); (* [Container._metadata] *)
  log : list (level * string);             (* calls of [logging] *)
  local_files : gmap string (list Byte.byte);
}.

Definition set_account (acc : gmap string Bucket) (s : State) : State :=
  {| account := acc; _metadata := _metadata s; log := log s;
     local_files := local_files s |}.

Definition set_metadata (m : option (gmap string string)) (s : State) : State :=
  {| account := account s; _metadata := m; log := log s;
     local_files := local_files s |}.

Definition logging (lv : level) (msg : string) (s : State) : State :=
  {| account := account s; _metadata := _metadata s; log := log s ++ [(lv, msg)];
     local_files := local_files s |}.

(** A method call: from a state to an outcome and a state. *)
Definition M (A : Type) : Type := State → outcome A * State.

Definition ret {A} (a : A) : M A := λ s, (Returned a, s).
Definition raise {A} (e : exn) : M A := λ s, (Raised e, s).
Definition bind {A B} (m : M A) (k : A → M B) : M B :=
  λ s, match m s with
       | (Returned a, s') => k a s'
       | (Raised e, s') => (Raised e, s')
       end.

Notation "x <-- m ;; k" := (bind m (λ x, k))
  (at level 100, m at next level, right associativity).
Notation "m ;;; k" := (bind m (λ _, k))
  (at level 100, right associativity).

(** [for x in l: body(x)] *)
Fixpoint for_each {A} (l : list A) (body : A → M unit) : M unit :=
  match l with
  | [] => ret tt
  | x :: r => body x ;;; for_each r body
  end.

(** ** Objects of the module *)

Record Project : Type := {
  project_id : string;
  project_name : string;
}.

Record Container : Type := {
  container_project : Project;
  container_name : string;
}.

Record File : Type := {
  name : string;
  bytes : nat;
  content_type_ : string;
  hash_ : string;
  last_modified_ : string;
  container : option Container;
}.

(** [File(container=self, **item)] *)
Definition new_File (self : Container) (item : Item) : File :=
  {| name := item_name item; bytes := item_bytes item;
     content_type_ := item_content_type item; hash_ := item_hash item;
     last_modified_ := item_last_modified item; container := Some self |}.

(** [if not new_name] *)
Definition falsy (new_name : option string) : bool :=
  match new_name with
  | None | Some EmptyString => true
  | Some _ => false
  end.

(** [if not new_name: new_name = os.path.basename(path)] *)
Definition name_or_basename (new_name : option string) (path : string) : string :=
  if falsy new_name then PyStr.basename path else default EmptyString new_name.

Definition conflict_msg : string :=
  "Target file path already exists! Set `overwrite=True` to overwrite file.".

Definition no_directory_msg : string :=
  "Specified directory does not exist in this container!".

(** ** [Container] *)

(** The property [Container.metadata]. *)
Definition Container_metadata (self : Container) : M (gmap string string) :=
  λ s, match _metadata s with
       | Some m => (Returned m, s)
       | None =>
           match Swift.head_container (account s) (container_name self) with
           | Returned m => (Returned m, set_metadata (Some m) s)
           | Raised e => (Raised e, s)
           end
       end.

Definition Container_list (self : Container) : M (list File) :=
  λ s, match Swift.get_container (account s) (container_name self) with
       | Returned (m, contents) =>
           (Returned (new_File self <$> contents), set_metadata (Some m) s)
       | Raised e => (Raised e, s)
       end.

Definition Container_copy (self : Container) (file_path target_directory : string)
    (new_name : option string) (overwrite : bool) : M unit :=
  λ s,
  let new_name := name_or_basename new_name file_path in
  let exists_ :=
    if overwrite then false
    else match Swift.head_object (account s) (container_name self)
                 (PyStr.join target_directory new_name) with
         | Returned _ => true
         | Raised _ => false
         end in
  if exists_ then (Returned tt, logging ERROR conflict_msg s)
  else
    match Swift.copy_object (account s) (container_name self) file_path
            (PyStr.join3 (container_name self) target_directory new_name) with
    | Returned acc => (Returned tt, logging INFO "Successfully copied the object" (set_account acc s))
    | Raised (ClientException e) =>
        (Returned tt, logging INFO ("Failed to copy the object with error: " +:+ e) s)
    | Raised e => (Raised e, s)
    end.

Definition Container_move (self : Container) (file_path target_directory : string)
    (new_name : option string) (overwrite : bool) : M unit :=
  λ s,
  let new_name := name_or_basename new_name file_path in
  let exists_ :=
    if overwrite then false
    else match Swift.head_object (account s) (container_name self)
                 (PyStr.join target_directory new_name) with
         | Returned _ => true
         | Raised _ => false
         end in
  if exists_ then (Returned tt, logging ERROR conflict_msg s)
  else
    let failed e := "Failed to move/rename the object with error: " +:+ e in
    match Swift.copy_object (account s) (container_name self) file_path
            (PyStr.join3 (container_name self) target_directory new_name) with
    | Returned acc =>
        match Swift.delete_object acc (container_name self) file_path with
        | Returned acc' =>
            let s' := set_account acc' s in
            if String.eqb (PyStr.dirname file_path) target_directory
            then (Returned tt, logging INFO "Successfully renamed the object" s')
            else (Returned tt, logging INFO "Successfully moved the object" s')
        | Raised (ClientException e) =>
            (Returned tt, logging ERROR (failed e) (set_account acc s))
        | Raised e => (Raised e, set_account acc s)
        end
    | Raised (ClientException e) => (Returned tt, logging ERROR (failed e) s)
    | Raised e => (Raised e, s)
    end.

Definition Container_delete (self : Container) (file_path : string) : M unit :=
  λ s, match Swift.delete_object (account s) (container_name self) file_path with
       | Returned acc =>
           (Returned tt, logging INFO "Successfully deleted the object" (set_account acc s))
       | Raised (ClientException e) =>
           (Returned tt, logging ERROR ("Failed to delete the object with error: " +:+ e) s)
       | Raised e => (Raised e, s)
       end.

(** [if directory_path[-1] != '/': directory_path += '/'] *)
Definition normalize_directory (directory_path : string) : outcome string :=
  match PyStr.last_char directory_path with
  | None => Raised IndexError
  | Some c => Returned (if PyStr.is_sep c then directory_path else directory_path +:+ "/")
  end.

(** [[f for f in all_files if f.name.startswith(directory_path)]] *)
Definition dir_files_of (directory_path : string) (all_files : list File) : list File :=
  List.filter (λ f, PyStr.startswith (name f) directory_path) all_files.

Definition Container_copy_directory (self : Container)
    (directory_path target_directory : string) (new_name : option string)
    (overwrite : bool) : M unit :=
  match normalize_directory directory_path with
  | Raised e => raise e
  | Returned directory_path =>
      let new_name := name_or_basename new_name directory_path in
      all_files <-- Container_list self ;;
      match dir_files_of directory_path all_files with
      | [] => raise (Exception_ no_directory_msg)
      | dir_files =>
          (λ s, (Returned tt, logging INFO "***** Directory Copy Details *****" s)) ;;;
          for_each dir_files (λ f,
            (λ s, (Returned tt, logging INFO ("Filename: " +:+ name f) s)) ;;;
            Container_copy self (name f) (PyStr.join target_directory new_name)
              None overwrite)
      end
  end.

Definition Container_delete_directory (self : Container) (directory_path : string)
  : M unit :=
  match normalize_directory directory_path with
  | Raised e => raise e
  | Returned directory_path =>
      all_files <-- Container_list self ;;
      match dir_files_of directory_path all_files with
      | [] => raise (Exception_ no_directory_msg)
      | dir_files =>
          (λ s, (Returned tt, logging INFO "***** Directory Delete Details *****" s)) ;;;
          for_each dir_files (λ f,
            (λ s, (Returned tt, logging INFO ("Filename: " +:+ name f) s)) ;;;
            Container_delete self (name f))
      end
  end.

(** *** [Container.read] *)

(** The argument [decode]: [False] or the name of an encoding. *)
Inductive decode_arg : Type :=
| DecodeFalse
| DecodeWith (encoding : string).

(** Truth value of [decode]. *)
Definition truthy (decode : decode_arg) : bool :=
  match decode with
  | DecodeFalse | DecodeWith EmptyString => false
  | DecodeWith _ => true
  end.

Definition encoding_of (decode : decode_arg) : string :=
  match decode with
  | DecodeFalse => EmptyString
  | DecodeWith e => e
  end.

(** What [read] returns: a [str] or [bytes]. *)
Inductive content : Type :=
| Text (s : string)
| Raw (b : list Byte.byte).

Definition text_content_types : list string := ["application/json"].

Definition str_in (x : string) (l : list string) : bool :=
  existsb (String.eqb x) l.

(** [ct_parts[0] == "text" or content_type in text_content_types or
    content_type in accept] *)
Definition is_text (content_type : string) (accept : list string) : bool :=
  let ct_parts := PyStr.split "/" content_type in
  String.eqb (List.hd EmptyString ct_parts) "text"
  || str_in content_type text_content_types
  || str_in content_type accept.

Section Read.

(** [bytes.decode]: the codec is a parameter. *)
Variable bytes_decode : list Byte.byte → string → outcome string.

Definition Container_read (self : Container) (file_path : string)
    (decode : decode_arg) (accept : list string) : M content :=
  λ s, match Swift.get_object (account s) (container_name self) file_path with
       | Raised e => (Raised e, s)
       | Returned (hdrs, contents) =>
           match hdrs !! "content-type" with
           | None => (Raised (KeyError "content-type"), s)
           | Some content_type =>
               if is_text content_type accept && truthy decode then
                 match bytes_decode contents (encoding_of decode) with
                 | Returned t => (Returned (Text t), s)
                 | Raised e => (Raised e, s)
                 end
               else (Returned (Raw contents), s)
           end
       end.

End Read.

(** *** [Container.upload] *)

(** The argument [local_paths]: one string or a list of strings. *)
Inductive paths_arg : Type :=
| OnePath (p : string)
| Paths (l : list string).

Definition paths_of (local_paths : paths_arg) : list string :=
  match local_paths with
  | OnePath p => [p]
  | Paths l => l
  end.

Section Upload.

Variable server_put : string → list Byte.byte → Obj.

(** The loop of [upload]; [remote_paths] is the list built so far.  The
    result [None] is the bare [return] of the overwrite guard. *)
Fixpoint upload_loop (self : Container) (remote_directory : string) (overwrite : bool)
    (local_paths : list string) (remote_paths : list string) : M (option (list string)) :=
  match local_paths with
  | [] => ret (Some remote_paths)
  | path :: rest =>
      λ s,
      let remote_path := PyStr.join remote_directory (PyStr.basename path) in
      let exists_ :=
        if overwrite then false
        else match Swift.head_object (account s) (container_name self) remote_path with
             | Returned _ => true
             | Raised _ => false
             end in
      if exists_ then
        (Returned None,
         logging ERROR ("File: " +:+ path +:+ " not uploaded. Reason: " +:+ conflict_msg) s)
      else
        match local_files s !! path with
        | None => (Raised (IOError "No such file or directory"), s)
        | Some file_data =>
            match Swift.put_object server_put (account s) (container_name self)
                    remote_path file_data with
            | Raised e => (Raised e, s)
            | Returned acc =>
                upload_loop self remote_directory overwrite rest
                  (remote_paths ++ [remote_path]) (set_account acc s)
            end
        end
  end.

Definition Container_upload (self : Container) (local_paths : paths_arg)
    (remote_directory : string) (overwrite : bool) : M (option (list string)) :=
  upload_loop self remote_directory overwrite (paths_of local_paths) [].

End Upload.

(** *** Access lists *)

(** A value of the dictionary [acl]: the empty string (an empty header is
    kept as it is) or a list of entries. *)
Inductive acl_value : Type :=
| AclEmptyStr
| AclList (l : list string).

(** [item = self.metadata.get(key, []); if item: item = item.split(",")] *)
Definition raw_acl (metadata : gmap string string) (key : string) : acl_value :=
  match metadata !! ("x-container-" +:+ key) with
  | None => AclList []
  | Some EmptyString => AclEmptyStr
  | Some item => AclList (PyStr.split "," item)
  end.

Definition acl_items (v : acl_value) : list string :=
  match v with
  | AclEmptyStr => []
  | AclList l => l
  end.

(** The loop over the entries of one key: [(is_public, user_ids)]. *)
Fixpoint scan_acl (items : list string) (is_public : bool) (user_ids : list string)
  : outcome (bool * list string) :=
  match items with
  | [] => Returned (is_public, user_ids)
  | item :: rest =>
      if str_in item [".r:*"; ".rlistings"] then scan_acl rest true user_ids
      else match PyStr.split ":" item !! 1%nat with
           | Some user_id => scan_acl rest is_public (user_ids ++ [user_id])
           | None => Raised IndexError
           end
  end.

(** [user_id_map.get(user_id, user_id)] *)
Definition username_of (user_id_map : list (string * string)) (user_id : string) : string :=
  default user_id (dict_get user_id_map user_id).

Definition show_acl (user_id_map : list (string * string)) (v : acl_value)
  : outcome acl_value :=
  match scan_acl (acl_items v) false [] with
  | Raised e => Raised e
  | Returned (is_public, user_ids) =>
      let names := username_of user_id_map <$> user_ids in
      Returned (AclList (if is_public then names ++ ["PUBLIC"] else names))
  end.


(** ** [File] *)

Definition File_copy (self : File) (target_directory : string)
    (new_name : option string) (overwrite : bool) : M unit :=
  match container self with
  | None => raise AttributeError
  | Some c =>
      Container_copy c (name self) (PyStr.dirname (name self)) new_name overwrite
  end.

(** ** [Archive] *)

Definition OS_AUTH_URL : string := "https://pollux.cscs.ch:13000/v3".
Definition OS_IDENTITY_PROVIDER : string := "cscskc".
Definition OS_IDENTITY_PROVIDER_URL : string :=
  "https://kc.cscs.ch/auth/realms/cscs/protocol/saml/".

(** The authentication plugin handed to the session. *)
Inductive auth : Type :=
| Token (auth_url token : string)
| V3Saml2Password (auth_url identity_provider protocol identity_provider_url
                   username password : string).

Record KsProject : Type := { ks_id : string; ks_name : string }.

Record Archive : Type := {
  archive_username : string;
  archive_auth : auth;
  user_id : string;
  _ks_projects : list (string * KsProject);
}.

Definition bad_username_msg : string := "Couldn't authenticate! Incorrect username.".
Definition bad_password_msg : string := "Couldn't authenticate! Incorrect password.".

Section Identity.

(** The identity service: [session.get_user_id()] for a plugin, and the
    projects of a user. *)
Variable get_user_id : auth → outcome string.
Variable projects_list : string → list KsProject.

(** [environ_pass] is [os.environ.get('CSCS_PASS')], [typed] the answer
    to the [getpass] prompt.  First the plugin [auth] is chosen. *)
Definition Archive_auth (username : string) (token : option string)
    (environ_pass : option string) (typed : string) : auth :=
  if falsy token then
    let pwd := if falsy environ_pass then typed else default EmptyString environ_pass in
    V3Saml2Password OS_AUTH_URL OS_IDENTITY_PROVIDER "mapped"
      OS_IDENTITY_PROVIDER_URL username pwd
  else Token OS_AUTH_URL (default EmptyString token).

Definition Archive_init (username : string) (token : option string)
    (environ_pass : option string) (typed : string) : outcome Archive :=
  let auth := Archive_auth username token environ_pass typed in
  match get_user_id auth with
  | Raised AuthorizationFailure => Raised (Exception_ bad_username_msg)
  | Raised IndexError => Raised (Exception_ bad_password_msg)
  | Raised e => Raised e
  | Returned uid =>
      Returned {| archive_username := username; archive_auth := auth; user_id := uid;
                  _ks_projects :=
                    foldl (λ d p, dict_set d (ks_name p) p) [] (projects_list uid) |}
  end.

End Identity.

(** A name without a slash that is not a dot segment, as container
    names are. *)
Definition plain_name (c : string) : Prop :=
  c ≠ EmptyString ∧ PyStr.contains "/" c = false ∧ Swift.dot_segment c = false.

(** A key whose path is the key itself: it is not empty and none of its
    segments is a dot segment. *)
Definition clean_key (k : string) : bool :=
  negb (String.eqb k EmptyString)
  && forallb (λ segment, negb (Swift.dot_segment segment)) (PyStr.split "/" k).

(** The overwrite guard lets a call through: overwriting is allowed, or
    the key is clean and free, so that the probe asks for the key itself
    and finds nothing. *)
Definition unguarded (b : Bucket) (key : string) (overwrite : bool) : Prop :=
  overwrite = true ∨ (clean_key key = true ∧ objects b !! key = None).

(** A path that does not start at the root. *)
Definition relative (p : string) : Prop := PyStr.startswith p "/" = false.


(** ** Sample data *)

Definition sample_project : Project :=
  {| project_id := "p1"; project_name := "MyProject" |}.

Definition sample_container : Container :=
  {| container_project := sample_project; container_name := "c" |}.

Definition sample_obj (ct : string) (data : list Byte.byte) : Obj :=
  {| content_type := ct; hash := "0cc175b9"; last_modified := "2018-01-01T00:00:00";
     contents := data |}.

(** A state whose account has the one container ["c"]. *)
Definition sample_state (hs : gmap string string) (objs : list (string * Obj)) : State :=
  {| account := {[ "c" := {| headers := hs; objects := list_to_map objs |} ]};
     _metadata := None; log := []; local_files := ∅ |}.

(** [x/new.txt] exists next to [src.txt]. *)
Definition conflict_state : State :=
  sample_state ∅ [("src.txt", sample_obj "text/plain" [Byte.x61]);
                  ("x/new.txt", sample_obj "text/plain" [Byte.x62])].

Definition move_state : State :=
  sample_state ∅ [("a.txt", sample_obj "text/plain" [Byte.x61])].

(** The state after [move("a.txt", "d")]. *)
Definition moved_state : State :=
  (Container_move sample_container "a.txt" "d" None false move_state).2.

(** A directory [a] with a sub-directory. *)
Definition nested_state : State :=
  sample_state ∅ [("a/sub/1.txt", sample_obj "text/plain" [Byte.x61])].

(** The sub-paths below a prefix, in the spec's words: the names that
    start with the prefix, without it. *)
Fixpoint strip_prefix (pre s : string) : option string :=
  match pre, s with
  | EmptyString, _ => Some s
  | String a pre', String b s' => if Ascii.eqb a b then strip_prefix pre' s' else None
  | String _ _, EmptyString => None
  end.

Definition relative_paths (prefix : string) (files : list File) : list string :=
  omap (λ f, strip_prefix prefix (name f)) files.

(** ** Textual content types, in the spec's words *)



(** The result of decoding, as [read] returns it. *)
Definition decoded (r : outcome string) : outcome content :=
  match r with
  | Returned t => Returned (Text t)
  | Raised e => Raised e
  end.

(** ** Well-formed identifiers and access lists *)



(** An entry the translation can read: a public marker, or an entry with
    a scope separator ("each item is project:user_id"). *)
Definition readable_entry (item : string) : Prop :=
  str_in item [".r:*"; ".rlistings"] = true ∨ PyStr.contains ":" item = true.



(** The metadata [Container.metadata] returns: the cache when it is
    filled, the container's headers otherwise. *)
Definition metadata_of (s : State) (b : Bucket) : gmap string string :=
  default (headers b) (_metadata s).



(** The file [src.txt] of the sample container. *)
Definition sample_file : File :=
  {| name := "src.txt"; bytes := 1; content_type_ := "text/plain"; hash_ := "0cc175b9";
     last_modified_ := "2018-01-01T00:00:00"; container := Some sample_container |}.

(** The three objects of the directory scenario. *)
Definition scenario_state : State :=
  sample_state ∅ [("a/1.txt", sample_obj "text/plain" [Byte.x31]);
                  ("a/2.txt", sample_obj "text/plain" [Byte.x32]);
                  ("b/3.txt", sample_obj "text/plain" [Byte.x33])].

(** A server that stores uploads as octet streams. *)
Definition sample_server_put (key : string) (data : list Byte.byte) : Obj :=
  sample_obj "application/octet-stream" data.

(** The key [./copy.txt] exists next to [src.txt], and there is a local
    file [copy.txt]. *)
Definition dotted_bucket : Bucket :=
  {| headers := ∅;
     objects := list_to_map [("src.txt", sample_obj "text/plain" [Byte.x61]);
                             ("./copy.txt", sample_obj "text/plain" [Byte.x62])] |}.

Definition dotted_state : State :=
  {| account := {[ "c" := dotted_bucket ]};
     _metadata := None; log := [];
     local_files := {[ "copy.txt" := [Byte.x63] ]} |}.

(** An empty container and three local files, two with the same name. *)
Definition upload_state : State :=
  {| account := {[ "c" := {| headers := ∅; objects := ∅ |} ]};
     _metadata := None; log := [];
     local_files := {[ "local/a.txt" := [Byte.x61]; "other/a.txt" := [Byte.x62];
                       "other/b.txt" := [Byte.x63] ]} |}.



(** A container that is public and readable by user [u2] of project [p0]. *)
Definition acl_state : State :=
  sample_state {[ "x-container-read" := ".r:*,p0:u2" ]} [].

(** Identity services that reject the principal, or the secret. *)
Definition unknown_principal (a : auth) : outcome string := Raised AuthorizationFailure.
Definition rejected_secret (a : auth) : outcome string := Raised IndexError.

(** ** Further methods of [Container] and [File] *)

Definition Container_get (self : Container) (file_path : string) : M File :=
  files <-- Container_list self ;;
  match List.find (λ f, String.eqb (name f) file_path) files with
  | Some f => ret f
  | None => raise (ValueError ("Path '" +:+ file_path +:+ "' does not exist"))
  end.

Definition Container_move_directory (self : Container)
    (directory_path target_directory : string) (new_name : option string)
    (overwrite : bool) : M unit :=
  match normalize_directory directory_path with
  | Raised e => raise e
  | Returned directory_path =>
      let new_name := name_or_basename new_name directory_path in
      all_files <-- Container_list self ;;
      match dir_files_of directory_path all_files with
      | [] => raise (Exception_ no_directory_msg)
      | dir_files =>
          (λ s, (Returned tt, logging INFO "***** Directory Move Details *****" s)) ;;;
          for_each dir_files (λ f,
            (λ s, (Returned tt, logging INFO ("Filename: " +:+ name f) s)) ;;;
            Container_move self (name f) (PyStr.join target_directory new_name)
              None overwrite)
      end
  end.



Definition File_delete (self : File) : M unit :=
  match container self with
  | Some c => Container_delete c (name self)
  | None => raise AttributeError
  end.

(** The container of [conflict_state]. *)
Definition conflict_bucket : Bucket :=
  {| headers := ∅;
     objects := list_to_map [("src.txt", sample_obj "text/plain" [Byte.x61]);
                             ("x/new.txt", sample_obj "text/plain" [Byte.x62])] |}.

(** The container of [scenario_state]. *)
Definition scenario_bucket : Bucket :=
  {| headers := ∅;
     objects := list_to_map [("a/1.txt", sample_obj "text/plain" [Byte.x31]);
                             ("a/2.txt", sample_obj "text/plain" [Byte.x32]);
                             ("b/3.txt", sample_obj "text/plain" [Byte.x33])] |}.

(** The key a directory operation gives an object: the target and the
    last component of its name. *)
Definition flat_key (target : string) (k : string) : string :=
  PyStr.join target (PyStr.basename k).

(** The directory the copies go to: [os.path.join(target_directory,
    new_name)] for the name chosen in the method. *)
Definition target_of (target_directory : string) (new_name : option string)
    (directory_path : string) : string :=
  PyStr.join target_directory (name_or_basename new_name directory_path).

(** The remote path [upload] gives a local path. *)
Definition remote_path_of (remote_directory path : string) : string :=
  PyStr.join remote_directory (PyStr.basename path).

(** ** The translation of an access list, in closed form *)

Definition is_marker (item : string) : bool := str_in item [".r:*"; ".rlistings"].

(** The user ids of the entries that are not public markers. *)
Definition entry_ids (items : list string) : list string :=
  omap (λ item, if is_marker item then None else PyStr.split ":" item !! 1%nat) items.

(** Usernames in the order of the entries, then ["PUBLIC"] once if some
    entry is a public marker. *)
Definition translated (user_id_map : list (string * string)) (items : list string)
  : list string :=
  (username_of user_id_map <$> entry_ids items)
  ++ (if existsb is_marker items then ["PUBLIC"] else []).

(** A container whose read list has an entry without a colon. *)
Definition unreadable_acl_state : State :=
  sample_state {[ "x-container-read" := "admin,p0:u2" ]} [].

(** ** [Project] *)

(** The cached fields of a [Project]: [_containers] maps a container name
    to the [_metadata] of its [Container] object; [_user_id_map] is the
    map behind [Project.users]. *)
Record ProjectCache : Type := {
  _containers : option (list (string * option (gmap string string)));
  _user_id_map : option (list (string * string));
}.

Definition name_le (x y : string) : Prop := String.leb x y = true.

#[export] Instance name_le_dec x y : Decision (name_le x y).
Proof. unfold name_le. apply _. Defined.

(** The names of [get_account]: the containers of the account, by name. *)
Definition get_account (acc : gmap string Bucket) : list string :=
  merge_sort name_le (map_to_list acc).*1.

(** [s.endswith(suffix)] *)
Definition endswith (s suffix : string) : bool :=
  PyStr.startswith (String.rev s) (String.rev suffix).

(** The property [Project.containers]. *)
Definition Project_containers (cache : ProjectCache) (acc : gmap string Bucket)
  : list (string * option (gmap string string)) * ProjectCache :=
  match _containers cache with
  | Some d => (d, cache)
  | None =>
      let d := (λ n, (n, None)) <$>
                 List.filter (λ n, negb (endswith n "_versions")) (get_account acc) in
      (d, {| _containers := Some d; _user_id_map := _user_id_map cache |})
  end.


(** The loop of [Project.users] over the lines of the document.  The map
    is updated in place, so it is returned with the exception too. *)
Fixpoint parse_user_ids (lines : list string) (in_user_list : bool)
    (map : list (string * string)) : option exn * list (string * string) :=
  match lines with
  | [] => (None, map)
  | line :: rest =>
      match line with
      | EmptyString => parse_user_ids rest in_user_list map
      | _ =>
          if PyStr.startswith line "# user ids" then parse_user_ids rest true map
          else if in_user_list then
            match PyStr.split " " line with
            | [user_id; username] =>
                parse_user_ids rest in_user_list (dict_set map user_id username)
            | [_] => (Some (ValueError "not enough values to unpack (expected 2, got 1)"), map)
            | _ => (Some (ValueError "too many values to unpack (expected 2)"), map)
            end
          else parse_user_ids rest in_user_list map
      end
  end.

Definition newline : ascii := Ascii.ascii_of_nat 10.

Section Users.

Variable bytes_decode : list Byte.byte → string → outcome string.

(** The property [Project.users]. *)
Definition Project_users (self : Project) (cache : ProjectCache) (s : State)
  : outcome (list (string * string)) * ProjectCache * State :=
  match _user_id_map cache with
  | Some m => (Returned m, cache, s)
  | None =>
      let '(d, cache) := Project_containers cache (account s) in
      let filled m := {| _containers := _containers cache; _user_id_map := Some m |} in
      match dict_get d "project_info" with
      | None => (Returned [], filled [], s)
      | Some _ =>
          let proj_info := {| container_project := self; container_name := "project_info" |} in
          match Container_read bytes_decode proj_info "user_ids" (DecodeWith "utf-8")
                  ["application/octet-stream"] s with
          | (Raised e, s') => (Raised e, filled [], s')
          | (Returned (Raw _), s') => (Raised TypeError, filled [], s')
          | (Returned (Text user_id_doc), s') =>
              match parse_user_ids (PyStr.split newline user_id_doc) false [] with
              | (Some e, m) => (Raised e, filled m, s')
              | (None, m) => (Returned m, filled m, s')
              end
          end
      end
  end.

End Users.

(** ** [Container.access_control] and [Container.grant_access]

    Both read [self.project.users], which may fill the project's cache
    and may raise. *)

Section Access.

Variable bytes_decode : list Byte.byte → string → outcome string.

Definition Container_access_control (self : Container) (show_usernames : bool)
    (cache : ProjectCache) (s : State)
  : outcome (list (string * acl_value)) * ProjectCache * State :=
  match Container_metadata self s with
  | (Raised e, s) => (Raised e, cache, s)
  | (Returned metadata, s) =>
      let read := raw_acl metadata "read" in
      let write := raw_acl metadata "write" in
      if show_usernames then
        match Project_users bytes_decode (container_project self) cache s with
        | (Raised e, cache, s) => (Raised e, cache, s)
        | (Returned user_id_map, cache, s) =>
            match show_acl user_id_map read with
            | Raised e => (Raised e, cache, s)
            | Returned read' =>
                match show_acl user_id_map write with
                | Raised e => (Raised e, cache, s)
                | Returned write' =>
                    (Returned [("read", read'); ("write", write')], cache, s)
                end
            end
        end
      else (Returned [("read", read); ("write", write)], cache, s)
  end.


End Access.

(** ** [Archive.find_container] *)





(** ** The document behind [Project.users] *)




(** A codec that knows UTF-8 on 7-bit data only. *)
Definition sample_utf8 (data : list Byte.byte) (encoding : string) : outcome string :=
  if String.eqb encoding "utf-8" then
    if forallb (λ x, (Byte.to_N x <? 128)%N) data
    then Returned (string_of_list_byte data)
    else Raised UnicodeDecodeError
  else Raised (LookupError encoding).


Definition fresh_cache : ProjectCache := {| _containers := None; _user_id_map := None |}.

(** The cache of [sample_project] after [Project.users] has been read. *)
Definition sample_users : list (string * string) := [("u1", "alice"); ("u2", "bob")].

Definition sample_users_cache : ProjectCache :=
  {| _containers := Some [("c", None)]; _user_id_map := Some sample_users |}.


(** ** [PublicContainer.read] *)

(** A response of [requests.get]: [ok], the body, and the header
    [Content-Type] when there is one. *)
Record Response : Type := {
  ok : bool;
  response_content : list Byte.byte;
  response_content_type : option string;
}.

Section PublicRead.

(** The web, and the codec of [bytes.decode]. *)
Variable requests_get : string → Response.
Variable bytes_decode : list Byte.byte → string → outcome string.

Definition PublicContainer_read (url file_path : string) (decode : decode_arg)
    (accept : list string) : outcome content :=
  let response := requests_get (url +:+ "/" +:+ file_path) in
  if ok response then
    let contents := response_content response in
    match response_content_type response with
    | None => Raised (KeyError "content-type")
    | Some content_type =>
        let split_off :=
          if PyStr.contains ";" content_type then
            match PyStr.split ";" content_type with
            | [content_type; encoding] => Returned content_type
            | [_] => Raised (ValueError "not enough values to unpack (expected 2, got 1)")
            | _ => Raised (ValueError "too many values to unpack (expected 2)")
            end
          else Returned content_type in
        match split_off with
        | Raised e => Raised e
        | Returned content_type =>
            if is_text content_type accept && truthy decode then
              match bytes_decode contents (encoding_of decode) with
              | Returned t => Returned (Text t)
              | Raised e => Raised e
              end
            else Returned (Raw contents)
        end
    end
  else Raised (Exception_ (string_of_list_byte (response_content response))).

End PublicRead.

(** A web with one JSON document served with a charset parameter. *)
Definition sample_web (url : string) : Response :=
  if String.eqb url "https://object.example/v1/public/data.json" then
    {| ok := true; response_content := [Byte.x7b; Byte.x7d];
       response_content_type := Some "application/json; charset=utf-8" |}
  else {| ok := false; response_content := []; response_content_type := None |}.

(** * Properties *)

(** ** Paths and destinations *)

Lemma app_cons (c : ascii) (a b : string) : String c a +:+ b = String c (a +:+ b).
Proof. reflexivity. Qed.

Lemma app_empty_l (b : string) : EmptyString +:+ b = b.
Proof. reflexivity. Qed.

Lemma last_char_app (a b : string) :
  b ≠ EmptyString → PyStr.last_char (a +:+ b) = PyStr.last_char b.
Proof.
  intros Hb. induction a as [|c a IH]; [done|].
  rewrite app_cons. cbn [PyStr.last_char]. rewrite IH.
  destruct (a +:+ b) eqn:E; [|done].
  destruct a; [by rewrite app_empty_l in E|discriminate E].
Qed.

Lemma endswith_sep_app (a b : string) :
  b ≠ EmptyString → PyStr.endswith_sep (a +:+ b) = PyStr.endswith_sep b.
Proof. intros Hb. unfold PyStr.endswith_sep. by rewrite last_char_app. Qed.

Lemma endswith_sep_app_sep (a : string) : PyStr.endswith_sep (a +:+ "/") = true.
Proof. by rewrite endswith_sep_app. Qed.

Lemma endswith_sep_no_sep (c : string) :
  PyStr.contains "/" c = false → PyStr.endswith_sep c = false.
Proof.
  unfold PyStr.endswith_sep. induction c as [|x c IH]; [done|].
  cbn [PyStr.contains PyStr.last_char]. intros [Hx Hc]%orb_false_elim.
  destruct c; [by unfold PyStr.is_sep; rewrite Hx|by apply IH].
Qed.

Lemma split_first_app (c rest : string) :
  PyStr.contains "/" c = false →
  Swift.split_first (c +:+ String "/" rest) = Some (c, rest).
Proof.
  induction c as [|x c IH]; [done|].
  cbn [PyStr.contains]. intros [Hx Hc]%orb_false_elim.
  rewrite app_cons. cbn [Swift.split_first]. unfold PyStr.is_sep at 1.
  rewrite Hx, (IH Hc). reflexivity.
Qed.

Lemma app_assoc_str (a b c : string) : (a +:+ b) +:+ c = a +:+ b +:+ c.
Proof. induction a as [|x a IH]; [done|]. by rewrite !app_cons, IH. Qed.

Lemma join3_container (c td nn : string) :
  plain_name c → relative td → relative nn →
  PyStr.join3 c td nn = c +:+ String "/" (PyStr.join td nn).
Proof.
  intros (Hc & Hns & _) Htd Hnn. unfold PyStr.join3, PyStr.join, PyStr.join_step.
  unfold relative in *. rewrite Htd, Hnn.
  destruct c as [|x c]; [done|]. rewrite (endswith_sep_no_sep _ Hns).
  change ("/" +:+ td) with (String "/" td).
  destruct (String x c +:+ String "/" td) eqn:E; [discriminate E|]. rewrite <- E.
  destruct td as [|y td].
  - rewrite endswith_sep_app by done. cbn [PyStr.endswith_sep PyStr.last_char PyStr.is_sep].
    change (Ascii.eqb "/" "/") with true. cbn match.
    by rewrite app_assoc_str.
  - rewrite endswith_sep_app by done.
    change (PyStr.endswith_sep (String "/" (String y td)))
      with (PyStr.endswith_sep (String y td)).
    destruct (PyStr.endswith_sep (String y td)); by rewrite app_assoc_str.
Qed.

Lemma split_destination_join3 (c td nn : string) :
  plain_name c → relative td → relative nn → PyStr.join td nn ≠ EmptyString →
  Swift.split_destination (PyStr.join3 c td nn) = Some (c, PyStr.join td nn).
Proof.
  intros Hc Htd Hnn Hkey. rewrite join3_container by done.
  destruct Hc as (Hc & Hns & _). unfold Swift.split_destination.
  destruct c as [|x c]; [done|]. rewrite app_cons.
  assert (PyStr.is_sep x = false) as ->.
  { cbn [PyStr.contains] in Hns. by apply orb_false_elim in Hns as [? _]. }
  rewrite <- app_cons, split_first_app by done.
  by destruct (PyStr.join td nn).
Qed.

Lemma split_last_no_head (p : string) :
  (PyStr.split_last p).1 = EmptyString →
  (PyStr.split_last p).2 = p ∧ PyStr.contains "/" p = false.
Proof.
  induction p as [|c p IH]; [done|]. cbn [PyStr.split_last PyStr.contains].
  destruct (PyStr.split_last p) as [[|h0 h] t]; [|discriminate].
  destruct (IH eq_refl) as [_ Hp].
  unfold PyStr.is_sep. destruct (Ascii.eqb c "/"); [discriminate|].
  by rewrite Hp.
Qed.

Lemma split_last_no_sep (p : string) : PyStr.contains "/" (PyStr.split_last p).2 = false.
Proof.
  induction p as [|c p IH]; [done|]. cbn [PyStr.split_last].
  pose proof (split_last_no_head p) as Hh.
  destruct (PyStr.split_last p) as [[|h0 h] t]; [|exact IH].
  destruct (Hh eq_refl) as [_ Hp].
  unfold PyStr.is_sep. destruct (Ascii.eqb c "/") eqn:Ec; cbn [snd PyStr.contains].
  - exact Hp.
  - by rewrite Ec, Hp.
Qed.

Lemma basename_relative (p : string) : relative (PyStr.basename p).
Proof.
  pose proof (split_last_no_sep p) as H. unfold PyStr.basename, relative.
  destruct (PyStr.split_last p).2 as [|c r]; [done|].
  cbn [PyStr.contains] in H. apply orb_false_elim in H as [H _].
  cbn [PyStr.startswith]. by rewrite H.
Qed.

(** ** Splitting and joining *)

Lemma split_not_nil (c : ascii) (s : string) : PyStr.split c s ≠ [].
Proof.
  destruct s as [|d r]; [done|]. cbn [PyStr.split].
  destruct (Ascii.eqb d c); [done|]. by destruct (PyStr.split c r).
Qed.


Lemma split_plain (c : ascii) (x : string) :
  PyStr.contains c x = false → PyStr.split c x = [x].
Proof.
  induction x as [|d r IH]; [done|]. cbn [PyStr.contains PyStr.split].
  intros [Hd Hr]%orb_false_elim. by rewrite Hd, (IH Hr).
Qed.

Lemma split_app (c : ascii) (x rest : string) :
  PyStr.contains c x = false →
  PyStr.split c (x +:+ String c rest) = x :: PyStr.split c rest.
Proof.
  induction x as [|d r IH].
  - intros _. rewrite app_empty_l. cbn [PyStr.split]. by rewrite Ascii.eqb_refl.
  - cbn [PyStr.contains]. intros [Hd Hr]%orb_false_elim.
    rewrite app_cons. cbn [PyStr.split]. by rewrite Hd, (IH Hr).
Qed.



Lemma contains_split_second (c : ascii) (s : string) :
  PyStr.contains c s = true → is_Some (PyStr.split c s !! 1%nat).
Proof.
  induction s as [|d r IH]; [done|]. cbn [PyStr.contains PyStr.split].
  destruct (Ascii.eqb d c).
  - intros _. pose proof (split_not_nil c r). destruct (PyStr.split c r); [done|by eexists].
  - cbn [orb]. intros Hr. apply IH in Hr as [x Hx].
    destruct (PyStr.split c r) as [|w ws]; [done|]. by exists x.
Qed.

(** ** Request paths *)

Lemma str_join_split (c : ascii) (s : string) :
  PyStr.str_join (String c EmptyString) (PyStr.split c s) = s.
Proof.
  induction s as [|d r IH]; [done|]. cbn [PyStr.split].
  pose proof (split_not_nil c r) as Hne.
  destruct (Ascii.eqb_spec d c) as [->|_].
  - destruct (PyStr.split c r) as [|w ws]; [done|].
    change (PyStr.str_join (String c "") ("" :: w :: ws))
      with (String c (PyStr.str_join (String c "") (w :: ws))).
    by rewrite IH.
  - destruct (PyStr.split c r) as [|w ws]; [done|]. rewrite <- IH.
    by destruct ws.
Qed.

Lemma remove_path_dot_segments_plain (segments output : list string) :
  forallb (λ segment, negb (Swift.dot_segment segment)) segments = true →
  Swift.remove_path_dot_segments segments output = Some (rev output ++ segments).
Proof.
  revert output. induction segments as [|x l IH]; intros output H.
  - cbn. by rewrite app_nil_r.
  - cbn [forallb] in H. apply andb_true_iff in H as [Hx Hl].
    apply negb_true_iff, orb_false_elim in Hx as [H1 H2].
    cbn [Swift.remove_path_dot_segments]. rewrite H1, H2, (IH _ Hl).
    cbn [rev]. by rewrite <- app_assoc.
Qed.

Lemma last_forallb (f : string → bool) (l : list string) (d : string) :
  l ≠ [] → forallb f l = true → f (List.last l d) = true.
Proof.
  induction l as [|x l IH]; [done|]. intros _ H. cbn [forallb] in H.
  apply andb_true_iff in H as [Hx Hl].
  destruct l as [|y l]; [exact Hx|]. by apply IH.
Qed.

(** The path of a clean key is the key. *)
Lemma resolve_clean (c k : string) :
  plain_name c → clean_key k = true → Swift.resolve c k = Swift.ObjectAt c k.
Proof.
  intros (Hc & Hns & Hdot) Hk. unfold clean_key in Hk.
  apply andb_true_iff in Hk as [Hne Hk]. apply negb_true_iff in Hne.
  unfold Swift.resolve. change ("/" +:+ k) with (String "/" k).
  rewrite (split_app "/" c k Hns).
  assert (forallb (λ segment, negb (Swift.dot_segment segment)) (c :: PyStr.split "/" k)
          = true) as Hall by (cbn [forallb]; by rewrite Hdot, Hk).
  rewrite remove_path_dot_segments_plain by exact Hall. cbn [rev app].
  pose proof (last_forallb (λ segment, negb (Swift.dot_segment segment))
                (c :: PyStr.split "/" k) EmptyString ltac:(done) Hall) as Hlast.
  apply negb_true_iff in Hlast. rewrite Hlast.
  cbn [Swift.route]. rewrite str_join_split.
  destruct c; [done|]. destruct k; [discriminate Hne|done].
Qed.

(** The path of the empty key is the container's. *)
Lemma resolve_empty (c : string) :
  plain_name c → Swift.resolve c EmptyString = Swift.ContainerAt c.
Proof.
  intros (Hc & Hns & Hdot). unfold Swift.resolve.
  change ("/" +:+ "") with (String "/" ""). rewrite (split_app "/" c "" Hns).
  cbn [PyStr.split Swift.remove_path_dot_segments].
  apply orb_false_elim in Hdot as [H1 H2]. rewrite H1, H2.
  cbn. by destruct c.
Qed.

Lemma head_object_clean (acc : gmap string Bucket) (c k : string) :
  plain_name c → clean_key k = true →
  Swift.head_object acc c k
  = match Swift.find_object acc c k with
    | Some o => Returned (Swift.object_headers o)
    | None => Raised (ClientException "Object HEAD failed")
    end.
Proof. intros Hc Hk. unfold Swift.head_object. by rewrite resolve_clean. Qed.

Lemma put_object_clean (server_put : string → list Byte.byte → Obj)
    (acc : gmap string Bucket) (c k : string) (data : list Byte.byte) (b : Bucket) :
  plain_name c → clean_key k = true → acc !! c = Some b →
  Swift.put_object server_put acc c k data
  = Returned (<[c := with_objects b (<[k := Swift.stored_object server_put k data]>
                                       (objects b))]> acc).
Proof. intros Hc Hk Hb. unfold Swift.put_object. by rewrite resolve_clean, Hb. Qed.

(** ** [scale_bytes] *)

Lemma dict_get_allowed_units_None (u : string) :
  u ∉ ["bytes"; "kB"; "MB"; "GB"; "TB"] → dict_get allowed_units u = None.
Proof.
  intros Hu. unfold allowed_units. cbn [dict_get].
  repeat match goal with
  | |- context [String.eqb ?k u] =>
      destruct (String.eqb_spec k u) as [Heq|_];
      [exfalso; apply Hu; rewrite <- Heq; set_solver|]
  end.
  reflexivity.
Qed.

(** C5: [scale_bytes(1048576, "MB")] is [1.0], and with a unit outside the
    allowed set [scale_bytes] raises [ValueError], whatever the value. *)
Theorem scale_bytes_MB_and_unknown_unit :
  scale_bytes (Q2Qc (inject_Z 1048576)) "MB" = Returned (Q2Qc 1) ∧
  ∀ (x : Qc) (u : string),
    u ∉ ["bytes"; "kB"; "MB"; "GB"; "TB"] →
    scale_bytes x u = Raised (ValueError allowed_units_msg).
Proof.
  split.
  - unfold scale_bytes. cbn [dict_get allowed_units String.eqb].
    f_equal. apply Qc_is_canon. reflexivity.
  - intros x u Hu. unfold scale_bytes.
    by rewrite dict_get_allowed_units_None.
Qed.

Lemma scale_bytes_unknown_unit_witness :
  scale_bytes (Q2Qc (inject_Z 5)) "unknown-unit" = Raised (ValueError allowed_units_msg).
Proof.
  apply (proj2 scale_bytes_MB_and_unknown_unit).
  intros H. repeat (apply elem_of_cons in H as [H|H]; [discriminate H|]).
  by apply elem_of_nil in H.
Defined.

(** ** [Archive.__init__] *)

(** C8: authentication at the root fails with an exception both when the
    identity service signals an unknown principal ([AuthorizationFailure])
    and when it rejects the secret ([IndexError]); the two exceptions
    raised carry different messages, so a caller can tell them apart. *)
Theorem Archive_init_failures_distinguishable
    (get_user_id : auth → outcome string) (projects_list : string → list KsProject)
    (username : string) (token environ_pass : option string) (typed : string) :
  let a := Archive_auth username token environ_pass typed in
  let r := Archive_init get_user_id projects_list username token environ_pass typed in
  (get_user_id a = Raised AuthorizationFailure → r = Raised (Exception_ bad_username_msg)) ∧
  (get_user_id a = Raised IndexError → r = Raised (Exception_ bad_password_msg)) ∧
  Exception_ bad_username_msg ≠ Exception_ bad_password_msg.
Proof.
  intros a r. subst a r. unfold Archive_init.
  split; [|split].
  - by intros ->.
  - by intros ->.
  - discriminate.
Qed.

(** ** [File.copy] *)

(** C9: [File.copy] does not use [target_directory]: for a file with a
    container the call is the container's [copy] into the file's own
    directory, whatever directory was asked for. *)
Theorem File_copy_ignores_target_directory
    (f : File) (c : Container) (target_directory : string)
    (new_name : option string) (overwrite : bool) (s : State) :
  container f = Some c →
  File_copy f target_directory new_name overwrite s
    = Container_copy c (name f) (PyStr.dirname (name f)) new_name overwrite s
  ∧ ∀ other : string,
      File_copy f other new_name overwrite s
        = File_copy f target_directory new_name overwrite s.
Proof.
  intros Hc. unfold File_copy. rewrite Hc. done.
Qed.

(** ** [Container.upload] *)

Section UploadProperties.

Variable server_put : string → list Byte.byte → Obj.

Lemma upload_loop_app (self : Container) (rd : string) (ow : bool)
    (pre rest acc done : list string) (s s1 : State) :
  upload_loop server_put self rd ow pre acc s = (Returned (Some done), s1) →
  upload_loop server_put self rd ow (pre ++ rest) acc s
    = upload_loop server_put self rd ow rest done s1.
Proof.
  revert acc s. induction pre as [|p pre IH]; intros acc s H.
  - cbn in H. injection H as <- <-. reflexivity.
  - cbn [upload_loop app] in *.
    destruct (if ow then false else _); [discriminate H|].
    destruct (local_files s !! p); [|discriminate H].
    destruct (Swift.put_object _ _ _ _ _); [|discriminate H].
    by apply IH.
Qed.


End UploadProperties.


(** ** The account and listings *)

Lemma find_object_lookup (acc : gmap string Bucket) (c k : string) (b : Bucket) :
  acc !! c = Some b → Swift.find_object acc c k = objects b !! k.
Proof. intros H. unfold Swift.find_object. by rewrite H. Qed.

Lemma Container_list_spec (self : Container) (s : State) (b : Bucket) :
  account s !! container_name self = Some b →
  Container_list self s
    = (Returned (new_File self <$> Swift.listing b), set_metadata (Some (headers b)) s).
Proof. intros H. unfold Container_list, Swift.get_container. by rewrite H. Qed.

(** The names in a listing are the keys of the container. *)
Lemma listed_names (self : Container) (b : Bucket) (k : string) :
  k ∈ name <$> (new_File self <$> Swift.listing b) ↔ is_Some (objects b !! k).
Proof.
  unfold Swift.listing. rewrite <- !list_fmap_compose.
  rewrite list_elem_of_fmap. split.
  - intros [[k' o] [-> Hin]]. rewrite merge_sort_Permutation in Hin.
    apply elem_of_map_to_list in Hin. by exists o.
  - intros [o Ho]. exists (k, o). split; [done|].
    rewrite merge_sort_Permutation. by apply elem_of_map_to_list.
Qed.

Lemma copy_object_spec (acc : gmap string Bucket) (c k dest dk : string)
    (b : Bucket) (o : Obj) :
  acc !! c = Some b → objects b !! k = Some o →
  Swift.split_destination dest = Some (c, dk) →
  Swift.copy_object acc c k dest
    = Returned (<[c := with_objects b (<[dk := o]> (objects b))]> acc).
Proof.
  intros Hc Hk Hd. unfold Swift.copy_object.
  by rewrite (find_object_lookup _ _ _ _ Hc), Hk, Hd, Hc.
Qed.

Lemma copy_object_missing (acc : gmap string Bucket) (c k dest : string) :
  Swift.find_object acc c k = None →
  Swift.copy_object acc c k dest = Raised (ClientException "Object COPY failed").
Proof. intros H. unfold Swift.copy_object. by rewrite H. Qed.

Lemma delete_object_spec (acc : gmap string Bucket) (c k : string) (b : Bucket) (o : Obj) :
  acc !! c = Some b → objects b !! k = Some o →
  Swift.delete_object acc c k
    = Returned (<[c := with_objects b (delete k (objects b))]> acc).
Proof. intros Hc Hk. unfold Swift.delete_object. by rewrite Hc, Hk. Qed.

(** ** Single-object copy and move *)

Section CopyMove.

Variable self : Container.
Variables (file_path target_directory : string) (new_name : option string).
Variables (s : State).

(** The key the object is copied to. *)
Let key : string :=
  PyStr.join target_directory (name_or_basename new_name file_path).

Lemma Container_copy_conflict (h : gmap string string) :
  Swift.head_object (account s) (container_name self) key = Returned h →
  Container_copy self file_path target_directory new_name false s
    = (Returned tt, logging ERROR conflict_msg s).
Proof. intros Hh. unfold key in Hh. unfold Container_copy. by rewrite Hh. Qed.

Lemma Container_move_conflict (h : gmap string string) :
  Swift.head_object (account s) (container_name self) key = Returned h →
  Container_move self file_path target_directory new_name false s
    = (Returned tt, logging ERROR conflict_msg s).
Proof. intros Hh. unfold key in Hh. unfold Container_move. by rewrite Hh. Qed.

Variable b : Bucket.
Hypothesis Hcontainer : account s !! container_name self = Some b.
Hypothesis Hname : plain_name (container_name self).

(** On a clean key the probe finds the object with that key. *)
Lemma head_object_present (k : string) (old : Obj) :
  clean_key k = true → objects b !! k = Some old →
  Swift.head_object (account s) (container_name self) k
    = Returned (Swift.object_headers old).
Proof.
  intros Hk Hold. rewrite head_object_clean by done.
  by rewrite (find_object_lookup _ _ _ _ Hcontainer), Hold.
Qed.

Lemma guard_passes (overwrite : bool) :
  unguarded b key overwrite →
  (if overwrite then false
   else match Swift.head_object (account s) (container_name self) key with
        | Returned _ => true
        | Raised _ => false
        end) = false.
Proof.
  intros [->|[Hclean Hfree]]; [done|]. destruct overwrite; [done|].
  rewrite head_object_clean by done.
  by rewrite (find_object_lookup _ _ _ _ Hcontainer), Hfree.
Qed.

Hypothesis Htarget : relative target_directory.
Hypothesis Hnew : relative (name_or_basename new_name file_path).
Hypothesis Hkey : key ≠ EmptyString.

Lemma Container_copy_done (overwrite : bool) (o : Obj) :
  objects b !! file_path = Some o → unguarded b key overwrite →
  Container_copy self file_path target_directory new_name overwrite s
    = (Returned tt,
       logging INFO "Successfully copied the object"
         (set_account (<[container_name self := with_objects b (<[key := o]> (objects b))]>
                         (account s)) s)).
Proof.
  intros Hsrc Hg. pose proof (guard_passes _ Hg) as G. unfold key in *.
  unfold Container_copy. cbv zeta. rewrite G.
  by rewrite (copy_object_spec _ _ _ _ _ b o Hcontainer Hsrc)
    by (by apply split_destination_join3).
Qed.

Lemma Container_move_done (overwrite : bool) (o : Obj) :
  objects b !! file_path = Some o → unguarded b key overwrite → key ≠ file_path →
  ∃ msg,
    Container_move self file_path target_directory new_name overwrite s
      = (Returned tt,
         logging INFO msg
           (set_account
              (<[container_name self :=
                   with_objects b (delete file_path (<[key := o]> (objects b)))]>
                 (account s)) s)).
Proof.
  intros Hsrc Hg Hne. pose proof (guard_passes _ Hg) as G. unfold key in *.
  unfold Container_move. cbv zeta. rewrite G.
  rewrite (copy_object_spec _ _ _ _ _ b o Hcontainer Hsrc)
    by (by apply split_destination_join3).
  erewrite delete_object_spec; [|apply lookup_insert_eq|].
  2:{ cbn [objects with_objects]. rewrite lookup_insert_ne by done. exact Hsrc. }
  rewrite insert_insert_eq. cbn [objects with_objects headers].
  destruct (String.eqb _ _); eexists; reflexivity.
Qed.

End CopyMove.

(** C2 (as stated, refuted): with [x/new.txt] present,
    [copy("src.txt", "x", new_name="new.txt")] returns; no exception
    reaches the caller. *)
Lemma Container_copy_conflict_not_raised :
  is_Some (Swift.find_object (account conflict_state) "c" "x/new.txt") ∧
  ¬ ∃ e : exn,
      (Container_copy sample_container "src.txt" "x" (Some "new.txt") false
         conflict_state).1 = Raised e.
Proof.
  split; [by eexists|]. intros [e He]. vm_compute in He. discriminate He.
Qed.

(** C2 (amended): when the existence probe ([head_object] on the
    destination key) returns and overwriting is not allowed, [copy] and
    [move] return normally, log the conflict with [logging.error] and
    leave the account untouched; on a clean destination key the probe
    returns whenever an object has that key; with overwriting allowed, a
    source with a clean key that exists and a destination inside the
    container, [copy] returns and the destination holds the source's
    object, hence the source's bytes. *)
Theorem Container_copy_overwrite_policy
    (self : Container) (file_path target_directory : string)
    (new_name : option string) (s : State) (b : Bucket) :
  let key := PyStr.join target_directory (name_or_basename new_name file_path) in
  account s !! container_name self = Some b →
  (∀ h : gmap string string,
     Swift.head_object (account s) (container_name self) key = Returned h →
     Container_copy self file_path target_directory new_name false s
       = (Returned tt, logging ERROR conflict_msg s) ∧
     Container_move self file_path target_directory new_name false s
       = (Returned tt, logging ERROR conflict_msg s)) ∧
  (∀ old : Obj, objects b !! key = Some old →
     plain_name (container_name self) → clean_key key = true →
     Swift.head_object (account s) (container_name self) key
       = Returned (Swift.object_headers old)) ∧
  (∀ o : Obj, objects b !! file_path = Some o → clean_key file_path = true →
     plain_name (container_name self) → relative target_directory →
     relative (name_or_basename new_name file_path) → key ≠ EmptyString →
     ∃ s' : State,
       Container_copy self file_path target_directory new_name true s = (Returned tt, s') ∧
       Swift.find_object (account s') (container_name self) key = Some o ∧
       (contents <$> Swift.find_object (account s') (container_name self) key)
         = Some (contents o)).
Proof.
  intros key Hb. split; [|split].
  - intros h Hh. split.
    + by eapply Container_copy_conflict.
    + by eapply Container_move_conflict.
  - intros old Hold Hname Hclean. by eapply head_object_present.
  - intros o Hsrc _ Hname Htd Hnn Hkey. eexists. split.
    + apply (Container_copy_done self file_path target_directory new_name s b);
        [done..|by left].
    + cbn [account logging set_account].
      erewrite find_object_lookup by apply lookup_insert_eq.
      cbn [objects with_objects]. fold key. by rewrite lookup_insert_eq.
Qed.

(** C3 (as stated, refuted): after [move("a.txt", "d")] the source is
    gone, and the same call again returns; it does not raise. *)
Lemma Container_move_retry_not_raised :
  Swift.find_object (account moved_state) "c" "a.txt" = None ∧
  ¬ ∃ e : exn,
      (Container_move sample_container "a.txt" "d" None false moved_state).1 = Raised e.
Proof.
  split; [by vm_compute|]. intros [e He]. vm_compute in He. discriminate He.
Qed.

(** C3 (amended): for a clean key [a] present in the container and a
    destination key other than [a] inside the container that the guard
    lets through (overwriting is allowed, or the key is clean and free),
    [move(a, b)] returns, and a listing then contains the moved object
    under [b] and no longer contains [a]; the same call again returns
    normally, changes nothing in the account and logs an error. *)
Theorem Container_move_then_retry
    (self : Container) (a target_directory : string) (overwrite : bool)
    (s : State) (b : Bucket) (o : Obj) :
  let key := PyStr.join target_directory (PyStr.basename a) in
  account s !! container_name self = Some b →
  objects b !! a = Some o → clean_key a = true →
  plain_name (container_name self) → relative target_directory →
  key ≠ EmptyString → key ≠ a → unguarded b key overwrite →
  ∃ (s1 s2 : State) (files : list File) (msg : string),
    Container_move self a target_directory None overwrite s = (Returned tt, s1) ∧
    (Container_list self s1).1 = Returned files ∧
    key ∈ (name <$> files) ∧ (a ∉ (name <$> files)) ∧
    Swift.find_object (account s1) (container_name self) key = Some o ∧
    Container_move self a target_directory None overwrite s1 = (Returned tt, s2) ∧
    account s2 = account s1 ∧ log s2 = log s1 ++ [(ERROR, msg)].
Proof.
  intros key Hb Ha _ Hname Htd Hkey Hne Hg.
  destruct (Container_move_done self a target_directory None s b Hb Hname Htd
              (basename_relative a) Hkey overwrite o Ha Hg Hne) as [m1 Hmove].
  set (b1 := with_objects b (delete a (<[key := o]> (objects b)))).
  set (s1 := logging INFO m1 (set_account (<[container_name self := b1]> (account s)) s)).
  assert (account s1 !! container_name self = Some b1) as Hb1 by apply lookup_insert_eq.
  assert (objects b1 !! key = Some o) as Hk1.
  { subst b1. cbn [objects with_objects].
    by rewrite lookup_delete_ne, lookup_insert_eq. }
  assert (objects b1 !! a = None) as Ha1.
  { subst b1. cbn [objects with_objects]. apply lookup_delete_eq. }
  assert (∃ s2 msg, Container_move self a target_directory None overwrite s1
                      = (Returned tt, s2)
                    ∧ account s2 = account s1 ∧ log s2 = log s1 ++ [(ERROR, msg)])
    as (s2 & msg & Hretry & Hacc & Hlog).
  { destruct overwrite.
    - exists (logging ERROR
                ("Failed to move/rename the object with error: " +:+ "Object COPY failed") s1).
      eexists. split; [|split; reflexivity].
      unfold Container_move. cbv zeta.
      rewrite copy_object_missing; [reflexivity|].
      by rewrite (find_object_lookup _ _ _ _ Hb1).
    - destruct Hg as [Hg|[Hclean _]]; [discriminate Hg|].
      exists (logging ERROR conflict_msg s1). eexists. split; [|split; reflexivity].
      apply (Container_move_conflict self a target_directory None s1
               (Swift.object_headers o)).
      by apply (head_object_present self s1 b1 Hb1 Hname). }
  exists s1, s2, (new_File self <$> Swift.listing b1), msg.
  split; [exact Hmove|]. split; [by rewrite (Container_list_spec _ _ _ Hb1)|].
  split; [apply listed_names; by rewrite Hk1|].
  split; [rewrite listed_names, Ha1; by intros [? ?]|].
  split; [by rewrite (find_object_lookup _ _ _ _ Hb1)|].
  done.
Qed.

(** C1: on a directory with a sub-directory, [copy_directory("a", "t")]
    puts [a/sub/1.txt] at [t/1.txt]: the sub-path [sub/1.txt] under [a] is
    not the sub-path under the target. *)
Theorem Container_copy_directory_flattens :
  ∃ (s1 : State) (files : list File),
    Container_copy_directory sample_container "a" "t" None false nested_state
      = (Returned tt, s1) ∧
    (Container_list sample_container s1).1 = Returned files ∧
    name <$> files = ["a/sub/1.txt"; "t/1.txt"] ∧
    relative_paths "a/" files = ["sub/1.txt"] ∧
    relative_paths "t/" files = ["1.txt"].
Proof. eexists _, _. vm_compute. done. Qed.

(** ** Deleting a directory *)

Section DeleteDirectory.

Variable self : Container.

Lemma with_objects_id (b : Bucket) : with_objects b (objects b) = b.
Proof. by destruct b. Qed.

Lemma Container_delete_present (s : State) (b : Bucket) (k : string) (o : Obj) :
  account s !! container_name self = Some b → objects b !! k = Some o →
  Container_delete self k s
    = (Returned tt,
       logging INFO "Successfully deleted the object"
         (set_account (<[container_name self := with_objects b (delete k (objects b))]>
                         (account s)) s)).
Proof.
  intros Hb Hk. unfold Container_delete.
  by rewrite (delete_object_spec _ _ _ _ _ Hb Hk).
Qed.

(** The loop of [delete_directory] over files whose names are distinct
    keys of the container removes exactly these keys. *)
Lemma delete_loop (fs : list File) (s : State) (b : Bucket) :
  account s !! container_name self = Some b →
  NoDup (name <$> fs) →
  (∀ k, k ∈ name <$> fs → is_Some (objects b !! k)) →
  ∃ (s' : State) (m' : gmap string Obj),
    for_each fs (λ f,
        (λ s, (Returned tt, logging INFO ("Filename: " +:+ name f) s)) ;;;
        Container_delete self (name f)) s = (Returned tt, s') ∧
    account s' = <[container_name self := with_objects b m']> (account s) ∧
    ∀ k, m' !! k = if decide (k ∈ name <$> fs) then None else objects b !! k.
Proof.
  revert s b. induction fs as [|f fs IH]; intros s b Hb Hnd Hin.
  - exists s, (objects b). split; [done|]. split.
    + by rewrite with_objects_id, insert_id.
    + intros k. by rewrite decide_False by apply not_elem_of_nil.
  - rewrite fmap_cons in Hnd, Hin. apply NoDup_cons in Hnd as [Hf Hnd].
    destruct (Hin (name f)) as [o Ho]; [by left|].
    set (b1 := with_objects b (delete (name f) (objects b))).
    set (s1 := logging INFO "Successfully deleted the object"
                 (set_account (<[container_name self := b1]> (account s))
                    (logging INFO ("Filename: " +:+ name f) s))).
    destruct (IH s1 b1) as (s' & m' & Hloop & Hacc & Hm').
    { apply lookup_insert_eq. }
    { exact Hnd. }
    { intros k Hk. subst b1. cbn [objects with_objects].
      rewrite lookup_delete_ne; [apply Hin; by right|]. by intros <-. }
    exists s', m'. split; [|split].
    + cbn [for_each]. unfold bind at 1 2.
      rewrite (Container_delete_present _ b (name f) o) by done.
      exact Hloop.
    + rewrite Hacc. subst s1 b1. cbn [account logging set_account].
      by rewrite insert_insert_eq.
    + intros k. rewrite Hm', fmap_cons. subst b1. cbn [objects with_objects].
      destruct (decide (k = name f)) as [->|Hk].
      * rewrite (decide_True (P := name f ∈ name f :: _)) by (by left).
        rewrite lookup_delete_eq. by destruct (decide _).
      * rewrite lookup_delete_ne by done.
        destruct (decide (k ∈ name <$> fs)) as [Hi|Hi].
        -- by rewrite decide_True by (by right).
        -- rewrite decide_False; [done|]. by intros [?|?]%elem_of_cons.
Qed.

Lemma listing_names_NoDup (b : Bucket) :
  NoDup (name <$> (new_File self <$> Swift.listing b)).
Proof.
  unfold Swift.listing. rewrite <- !list_fmap_compose.
  change (name ∘ new_File self ∘ Swift.to_item) with (fst : string * Obj → string).
  rewrite merge_sort_Permutation. apply NoDup_fst_map_to_list.
Qed.

Lemma dir_files_names (nd : string) (fs : list File) :
  name <$> dir_files_of nd fs
    = List.filter (λ k, PyStr.startswith k nd) (name <$> fs).
Proof.
  unfold dir_files_of. induction fs as [|f fs IH]; [done|].
  cbn [List.filter fmap list_fmap]. destruct (PyStr.startswith (name f) nd); cbn; by rewrite IH.
Qed.

Lemma dir_files_elem (nd : string) (b : Bucket) (k : string) :
  k ∈ name <$> dir_files_of nd (new_File self <$> Swift.listing b)
  ↔ is_Some (objects b !! k) ∧ PyStr.startswith k nd = true.
Proof.
  rewrite dir_files_names, list_elem_of_In, filter_In, <- list_elem_of_In.
  by rewrite listed_names.
Qed.

Lemma Container_delete_directory_spec (s : State) (b : Bucket) (d nd k0 : string) :
  account s !! container_name self = Some b →
  normalize_directory d = Returned nd →
  is_Some (objects b !! k0) → PyStr.startswith k0 nd = true →
  ∃ (s' : State) (m' : gmap string Obj),
    Container_delete_directory self d s = (Returned tt, s') ∧
    account s' = <[container_name self := with_objects b m']> (account s) ∧
    ∀ k, m' !! k = if PyStr.startswith k nd then None else objects b !! k.
Proof.
  intros Hb Hnd Hk0 Hp0. unfold Container_delete_directory. rewrite Hnd.
  unfold bind at 1. rewrite (Container_list_spec _ _ _ Hb).
  set (fs := dir_files_of nd (new_File self <$> Swift.listing b)).
  assert (name <$> fs ≠ []) as Hne.
  { intros E. assert (k0 ∈ name <$> fs) as Hin by (by apply dir_files_elem).
    rewrite E in Hin. by apply not_elem_of_nil in Hin. }
  destruct (delete_loop fs
              (logging INFO "***** Directory Delete Details *****"
                 (set_metadata (Some (headers b)) s)) b)
    as (s' & m' & Hloop & Hacc & Hm').
  { exact Hb. }
  { subst fs. rewrite dir_files_names. apply NoDup_ListNoDup, List.NoDup_filter,
      NoDup_ListNoDup, listing_names_NoDup. }
  { intros k Hk. by apply dir_files_elem in Hk as [? _]. }
  exists s', m'. split; [|split].
  - destruct fs as [|f fs']; [done|]. unfold bind at 1. exact Hloop.
  - exact Hacc.
  - intros k. rewrite Hm'. subst fs.
    destruct (decide _) as [Hi|Hi].
    + apply dir_files_elem in Hi as [_ ->]. done.
    + destruct (PyStr.startswith k nd) eqn:Ek; [|done].
      destruct (objects b !! k) eqn:Eo; [|done].
      exfalso. apply Hi, dir_files_elem. by rewrite Eo.
Qed.

Lemma Container_delete_directory_missing (s : State) (b : Bucket) (d nd : string) :
  account s !! container_name self = Some b →
  normalize_directory d = Returned nd →
  (∀ k, is_Some (objects b !! k) → PyStr.startswith k nd = false) →
  Container_delete_directory self d s
    = (Raised (Exception_ no_directory_msg), set_metadata (Some (headers b)) s).
Proof.
  intros Hb Hnd Hnone. unfold Container_delete_directory. rewrite Hnd.
  unfold bind at 1. rewrite (Container_list_spec _ _ _ Hb).
  destruct (dir_files_of nd (new_File self <$> Swift.listing b)) as [|f fs] eqn:E; [done|].
  exfalso. assert (name f ∈ name <$> dir_files_of nd (new_File self <$> Swift.listing b)) as Hin.
  { rewrite E, fmap_cons. by left. }
  apply dir_files_elem in Hin as [Hs Hp]. by rewrite (Hnone _ Hs) in Hp.
Qed.

End DeleteDirectory.

(** C4: in a container holding [a/1.txt], [a/2.txt] and [b/3.txt],
    [delete_directory("a")] deletes exactly the keys that start with
    ["a/"]: [a/1.txt] and [a/2.txt] are gone, [b/3.txt] is untouched; the
    same call again matches no key and raises the exception
    "Specified directory does not exist in this container!". *)
Theorem Container_delete_directory_scenario
    (self : Container) (s : State) (b : Bucket) (o1 o2 o3 : Obj) :
  account s !! container_name self = Some b →
  objects b = {[ "a/1.txt" := o1; "a/2.txt" := o2; "b/3.txt" := o3 ]} →
  ∃ (s1 : State) (files : list File),
    Container_delete_directory self "a" s = (Returned tt, s1) ∧
    (∀ k, Swift.find_object (account s1) (container_name self) k
          = if PyStr.startswith k "a/" then None else objects b !! k) ∧
    Swift.find_object (account s1) (container_name self) "a/1.txt" = None ∧
    Swift.find_object (account s1) (container_name self) "a/2.txt" = None ∧
    Swift.find_object (account s1) (container_name self) "b/3.txt" = Some o3 ∧
    (Container_list self s1).1 = Returned files ∧
    name <$> files = ["b/3.txt"] ∧
    (Container_delete_directory self "a" s1).1 = Raised (Exception_ no_directory_msg).
Proof.
  intros Hb Hobj.
  destruct (Container_delete_directory_spec self s b "a" "a/" "a/1.txt" Hb)
    as (s1 & m' & Hdel & Hacc & Hm'); [done| |done|].
  { rewrite Hobj. by eexists. }
  assert (account s1 !! container_name self = Some (with_objects b m')) as Hb1.
  { rewrite Hacc. apply lookup_insert_eq. }
  assert (∀ k, Swift.find_object (account s1) (container_name self) k
               = if PyStr.startswith k "a/" then None else objects b !! k) as Hfind.
  { intros k. rewrite (find_object_lookup _ _ _ _ Hb1). apply Hm'. }
  assert (m' = {[ "b/3.txt" := o3 ]}) as Hm.
  { apply map_eq. intros k. rewrite Hm', Hobj.
    destruct (PyStr.startswith k "a/") eqn:Ek.
    - symmetry. apply lookup_singleton_ne. by intros <-.
    - rewrite !lookup_insert. repeat case_decide; by subst. }
  exists s1, (new_File self <$> Swift.listing (with_objects b m')).
  split; [exact Hdel|]. split; [exact Hfind|].
  split; [by rewrite Hfind|]. split; [by rewrite Hfind|].
  split; [by rewrite Hfind, Hobj|].
  split; [by rewrite (Container_list_spec _ _ _ Hb1)|].
  split; [by rewrite Hm|].
  rewrite (Container_delete_directory_missing self s1 (with_objects b m') "a" "a/" Hb1);
    [done|done|].
  intros k [o Ho]. cbn [objects with_objects] in Ho. rewrite Hm' in Ho.
  by destruct (PyStr.startswith k "a/").
Qed.

(** ** [Container.read] *)





(** ** Dictionaries *)






(** ** Identifiers *)





(** ** [Project.users] and its cache *)

Section UsersCache.

Variable bytes_decode : list Byte.byte → string → outcome string.

Lemma Container_read_state (self : Container) (file_path : string)
    (decode : decode_arg) (accept : list string) (s : State) :
  (Container_read bytes_decode self file_path decode accept s).2 = s.
Proof.
  unfold Container_read. destruct (Swift.get_object _ _ _) as [[h c]|e]; [|done].
  destruct (h !! _); [|done]. destruct (_ && _); [|done]. by destruct (bytes_decode _ _).
Qed.

Lemma Container_read_account (self : Container) (file_path : string)
    (decode : decode_arg) (accept : list string) (s1 s2 : State) :
  account s1 = account s2 →
  (Container_read bytes_decode self file_path decode accept s1).1
  = (Container_read bytes_decode self file_path decode accept s2).1.
Proof.
  intros E. unfold Container_read. rewrite E.
  destruct (Swift.get_object _ _ _) as [[h c]|e]; [|done].
  destruct (h !! _); [|done]. destruct (_ && _); [|done]. by destruct (bytes_decode _ _).
Qed.

Variable self : Project.


(** [Project.users] reads; it changes nothing but the cache. *)
Lemma Project_users_state (cache : ProjectCache) (s : State) :
  (Project_users bytes_decode self cache s).2 = s.
Proof.
  unfold Project_users. destruct (_user_id_map cache); [done|].
  destruct (Project_containers cache (account s)) as [d cache1].
  destruct (dict_get d "project_info"); [|done].
  pose proof (Container_read_state
                {| container_project := self; container_name := "project_info" |}
                "user_ids" (DecodeWith "utf-8") ["application/octet-stream"] s) as H.
  destruct (Container_read _ _ _ _ _ s) as [[[t|raw]|e] s']; cbn [snd] in H; subst s';
    [|done..].
  by destruct (parse_user_ids _ false []) as [[e|] m].
Qed.

(** Its result depends on the state through the account only. *)
Lemma Project_users_account (cache : ProjectCache) (s1 s2 : State) :
  account s1 = account s2 →
  (Project_users bytes_decode self cache s1).1
  = (Project_users bytes_decode self cache s2).1.
Proof.
  intros E. unfold Project_users. destruct (_user_id_map cache); [done|]. rewrite E.
  destruct (Project_containers cache (account s2)) as [d cache1].
  destruct (dict_get d "project_info"); [|done].
  pose proof (Container_read_account
                {| container_project := self; container_name := "project_info" |}
                "user_ids" (DecodeWith "utf-8") ["application/octet-stream"] s1 s2 E) as H.
  destruct (Container_read _ _ _ _ _ s1) as [r1 s1'].
  destruct (Container_read _ _ _ _ _ s2) as [r2 s2']. cbn [fst] in H. subst r2.
  destruct r1 as [[t|raw]|e]; [|done..].
  by destruct (parse_user_ids _ false []) as [[e|] m].
Qed.


Lemma Project_users_returned (cache : ProjectCache) (s s0 : State)
    (m : list (string * string)) :
  account s0 = account s →
  (Project_users bytes_decode self cache s).1.1 = Returned m →
  Project_users bytes_decode self cache s0
  = (Returned m, (Project_users bytes_decode self cache s).1.2, s0).
Proof.
  intros E H. pose proof (Project_users_state cache s0) as Hs.
  pose proof (Project_users_account cache s0 s E) as Ha.
  destruct (Project_users bytes_decode self cache s0) as [r s0'].
  cbn [fst snd] in *. subst s0' r.
  destruct (Project_users bytes_decode self cache s) as [[r c] s']. cbn [fst snd] in *.
  by subst r.
Qed.

End UsersCache.

(** ** Access control *)

Section AccessControl.

Variable bytes_decode : list Byte.byte → string → outcome string.
Variable self : Container.
Variable user_id_map : list (string * string).





Lemma Container_metadata_spec (s : State) (b : Bucket) :
  account s !! container_name self = Some b →
  Container_metadata self s
    = (Returned (metadata_of s b), set_metadata (Some (metadata_of s b)) s).
Proof.
  intros Hb. unfold Container_metadata, metadata_of, Swift.head_container.
  destruct s as [acc [m|] lg lf]; cbn in *; [done|]. by rewrite Hb.
Qed.






(** [access_control()] when [Project.users] returns [user_id_map]. *)
Lemma Container_access_control_unfold (cache : ProjectCache) (s : State) (b : Bucket) :
  account s !! container_name self = Some b →
  (Project_users bytes_decode (container_project self) cache s).1.1 = Returned user_id_map →
  let cache' := (Project_users bytes_decode (container_project self) cache s).1.2 in
  let s' := set_metadata (Some (metadata_of s b)) s in
  Container_access_control bytes_decode self true cache s
    = match show_acl user_id_map (raw_acl (metadata_of s b) "read") with
      | Raised e => (Raised e, cache', s')
      | Returned r =>
          match show_acl user_id_map (raw_acl (metadata_of s b) "write") with
          | Raised e => (Raised e, cache', s')
          | Returned w => (Returned [("read", r); ("write", w)], cache', s')
          end
      end.
Proof.
  intros Hb Hu cache' s'. unfold Container_access_control.
  rewrite (Container_metadata_spec _ _ Hb). fold s'.
  rewrite (Project_users_returned bytes_decode _ cache s s' user_id_map eq_refl Hu).
  fold cache'. destruct (show_acl _ _); [|done]. by destruct (show_acl _ _).
Qed.



End AccessControl.



(** * The theorems at sample inputs *)

Lemma Archive_init_failures_witness :
  Archive_init unknown_principal (λ _, []) "xyzabc" None (Some "pw") ""
    = Raised (Exception_ bad_username_msg) ∧
  Archive_init rejected_secret (λ _, []) "xyzabc" None (Some "pw") ""
    = Raised (Exception_ bad_password_msg).
Proof.
  split.
  - apply (Archive_init_failures_distinguishable unknown_principal (λ _, [])
             "xyzabc" None (Some "pw") ""). reflexivity.
  - apply (Archive_init_failures_distinguishable rejected_secret (λ _, [])
             "xyzabc" None (Some "pw") ""). reflexivity.
Defined.

Lemma File_copy_ignores_target_directory_witness :
  container sample_file = Some sample_container ∧
  File_copy sample_file "backup" (Some "copy.txt") false conflict_state
    = Container_copy sample_container "src.txt" "" (Some "copy.txt") false conflict_state.
Proof.
  split; [reflexivity|].
  apply (File_copy_ignores_target_directory sample_file sample_container "backup"
           (Some "copy.txt") false conflict_state).
  reflexivity.
Defined.


Lemma Container_copy_overwrite_policy_witness :
  Container_copy sample_container "src.txt" "x" (Some "new.txt") false conflict_state
    = (Returned tt, logging ERROR conflict_msg conflict_state) ∧
  ∃ s' : State,
    Container_copy sample_container "src.txt" "x" (Some "new.txt") true conflict_state
      = (Returned tt, s') ∧
    (contents <$> Swift.find_object (account s') "c" "x/new.txt") = Some [Byte.x61].
Proof.
  destruct (Container_copy_overwrite_policy sample_container "src.txt" "x" (Some "new.txt")
              conflict_state
              {| headers := ∅;
                 objects := list_to_map
                   [("src.txt", sample_obj "text/plain" [Byte.x61]);
                    ("x/new.txt", sample_obj "text/plain" [Byte.x62])] |} eq_refl)
    as (Hconflict & Hprobe & Hoverwrite).
  split.
  - eapply Hconflict.
    apply (Hprobe (sample_obj "text/plain" [Byte.x62]));
      [reflexivity|split; [discriminate|split; reflexivity]|reflexivity].
  - destruct (Hoverwrite (sample_obj "text/plain" [Byte.x61])) as (s' & Hcopy & _ & Hbytes).
    + reflexivity.
    + reflexivity.
    + split; [discriminate|split; reflexivity].
    + reflexivity.
    + reflexivity.
    + discriminate.
    + exists s'. split; [exact Hcopy|exact Hbytes].
Defined.

Lemma Container_move_then_retry_witness :
  ∃ (s1 s2 : State) (files : list File) (msg : string),
    Container_move sample_container "a.txt" "d" None false move_state = (Returned tt, s1) ∧
    (Container_list sample_container s1).1 = Returned files ∧
    "d/a.txt" ∈ (name <$> files) ∧ ("a.txt" ∉ (name <$> files)) ∧
    Swift.find_object (account s1) "c" "d/a.txt" = Some (sample_obj "text/plain" [Byte.x61]) ∧
    Container_move sample_container "a.txt" "d" None false s1 = (Returned tt, s2) ∧
    account s2 = account s1 ∧ log s2 = log s1 ++ [(ERROR, msg)].
Proof.
  apply (Container_move_then_retry sample_container "a.txt" "d" false move_state
           {| headers := ∅;
              objects := list_to_map [("a.txt", sample_obj "text/plain" [Byte.x61])] |}
           (sample_obj "text/plain" [Byte.x61])).
  - reflexivity.
  - reflexivity.
  - reflexivity.
  - split; [discriminate|split; reflexivity].
  - reflexivity.
  - discriminate.
  - discriminate.
  - right. split; reflexivity.
Defined.

Lemma Container_delete_directory_scenario_witness :
  ∃ (s1 : State) (files : list File),
    Container_delete_directory sample_container "a" scenario_state = (Returned tt, s1) ∧
    Swift.find_object (account s1) "c" "a/1.txt" = None ∧
    Swift.find_object (account s1) "c" "a/2.txt" = None ∧
    Swift.find_object (account s1) "c" "b/3.txt" = Some (sample_obj "text/plain" [Byte.x33]) ∧
    name <$> files = ["b/3.txt"] ∧
    (Container_delete_directory sample_container "a" s1).1
      = Raised (Exception_ no_directory_msg).
Proof.
  destruct (Container_delete_directory_scenario sample_container scenario_state
              {| headers := ∅;
                 objects := list_to_map
                   [("a/1.txt", sample_obj "text/plain" [Byte.x31]);
                    ("a/2.txt", sample_obj "text/plain" [Byte.x32]);
                    ("b/3.txt", sample_obj "text/plain" [Byte.x33])] |}
              (sample_obj "text/plain" [Byte.x31]) (sample_obj "text/plain" [Byte.x32])
              (sample_obj "text/plain" [Byte.x33]) eq_refl eq_refl)
    as (s1 & files & H1 & _ & H2 & H3 & H4 & _ & H5 & H6).
  exists s1, files. repeat split; assumption.
Defined.



(** * Further properties *)

(** ** [Container.get] *)

Lemma listing_item_lookup (b : Bucket) (it : Item) :
  it ∈ Swift.listing b →
  ∃ o, objects b !! item_name it = Some o ∧ it = Swift.to_item (item_name it, o).
Proof.
  unfold Swift.listing. intros [[k o] [-> Hin]]%list_elem_of_fmap.
  rewrite merge_sort_Permutation in Hin. apply elem_of_map_to_list in Hin.
  by exists o.
Qed.

(** [get] returns the file of an existing key, with the listing's data
    and the container as its owner; for a key that is not in the
    container it raises [ValueError]. *)
Theorem Container_get_found_or_ValueError
    (self : Container) (file_path : string) (s : State) (b : Bucket) :
  account s !! container_name self = Some b →
  (∀ o : Obj, objects b !! file_path = Some o →
     Container_get self file_path s
       = (Returned (new_File self (Swift.to_item (file_path, o))),
          set_metadata (Some (headers b)) s)) ∧
  (objects b !! file_path = None →
     Container_get self file_path s
       = (Raised (ValueError ("Path '" +:+ file_path +:+ "' does not exist")),
          set_metadata (Some (headers b)) s)).
Proof.
  intros Hb.
  cut (match objects b !! file_path with
       | Some o =>
           Container_get self file_path s
             = (Returned (new_File self (Swift.to_item (file_path, o))),
                set_metadata (Some (headers b)) s)
       | None =>
           Container_get self file_path s
             = (Raised (ValueError ("Path '" +:+ file_path +:+ "' does not exist")),
                set_metadata (Some (headers b)) s)
       end).
  { intros H. split; [intros o Ho|intros Ho]; by rewrite Ho in H. }
  assert (Container_get self file_path s
          = match List.find (λ f, String.eqb (name f) file_path)
                    (new_File self <$> Swift.listing b) with
            | Some f => (Returned f, set_metadata (Some (headers b)) s)
            | None => (Raised (ValueError ("Path '" +:+ file_path +:+ "' does not exist")),
                       set_metadata (Some (headers b)) s)
            end) as ->.
  { unfold Container_get. unfold bind at 1. rewrite (Container_list_spec _ _ _ Hb).
    by destruct (List.find _ _). }
  destruct (List.find _ _) as [f|] eqn:Efind.
  - apply find_some in Efind as [Hin Hname]. apply String.eqb_eq in Hname.
    apply list_elem_of_In, list_elem_of_fmap in Hin as (it & -> & Hit).
    apply listing_item_lookup in Hit as (o & Ho & Hit').
    cbn [name new_File] in Hname. rewrite Hname in Ho, Hit'. rewrite Ho.
    clear Hname. subst it. reflexivity.
  - destruct (objects b !! file_path) as [o|] eqn:Eo; [|reflexivity].
    exfalso.
    assert (file_path ∈ name <$> (new_File self <$> Swift.listing b)) as Hin.
    { apply listed_names. by rewrite Eo. }
    apply list_elem_of_fmap in Hin as (f & Hf & Hin).
    apply list_elem_of_In in Hin.
    pose proof (find_none _ _ Efind f Hin) as Hne. cbn in Hne.
    rewrite <- Hf, String.eqb_refl in Hne. discriminate Hne.
Qed.

Lemma Container_get_witness :
  Container_get sample_container "src.txt" conflict_state
    = (Returned sample_file, set_metadata (Some ∅) conflict_state) ∧
  Container_get sample_container "nothing.txt" conflict_state
    = (Raised (ValueError "Path 'nothing.txt' does not exist"),
       set_metadata (Some ∅) conflict_state).
Proof.
  split.
  - apply (proj1 (Container_get_found_or_ValueError sample_container "src.txt"
                    conflict_state conflict_bucket eq_refl)
             (sample_obj "text/plain" [Byte.x61])).
    reflexivity.
  - apply (proj2 (Container_get_found_or_ValueError sample_container "nothing.txt"
                    conflict_state conflict_bucket eq_refl)).
    reflexivity.
Defined.

(** ** Directory operations in general *)


(** The keys of [scenario_bucket], from a lookup that succeeds. *)
Ltac scenario_keys H :=
  let o := fresh "o" in
  destruct H as [o H]; unfold scenario_bucket in H;
  cbn [objects list_to_map foldr] in H; rewrite !lookup_insert in H;
  repeat case_decide; subst; try (by rewrite lookup_empty in H).


Lemma dir_files_none (self : Container) (b : Bucket) (nd : string) :
  (∀ k, is_Some (objects b !! k) → PyStr.startswith k nd = false) →
  dir_files_of nd (new_File self <$> Swift.listing b) = [].
Proof.
  intros Hnone.
  destruct (dir_files_of nd (new_File self <$> Swift.listing b)) as [|f fs] eqn:E; [done|].
  exfalso.
  assert (name f ∈ name <$> dir_files_of nd (new_File self <$> Swift.listing b)) as Hin.
  { rewrite E, fmap_cons. by left. }
  apply dir_files_elem in Hin as [Hs Hp]. by rewrite (Hnone _ Hs) in Hp.
Qed.

(** A directory operation whose prefix matches no key raises the
    exception "Specified directory does not exist in this container!"
    whatever the other arguments are; it writes nothing and logs nothing
    (only the cached metadata is refreshed by the listing).  On the empty
    path all three raise [IndexError] before any request. *)
Theorem directory_operations_on_missing_directory
    (self : Container) (s : State) (b : Bucket) (d nd target_directory : string)
    (new_name : option string) (overwrite : bool) :
  account s !! container_name self = Some b →
  normalize_directory d = Returned nd →
  (∀ k, is_Some (objects b !! k) → PyStr.startswith k nd = false) →
  let failed := (Raised (Exception_ no_directory_msg) : outcome unit,
                 set_metadata (Some (headers b)) s) in
  Container_copy_directory self d target_directory new_name overwrite s = failed ∧
  Container_move_directory self d target_directory new_name overwrite s = failed ∧
  Container_delete_directory self d s = failed ∧
  Container_copy_directory self "" target_directory new_name overwrite s
    = (Raised IndexError, s) ∧
  Container_move_directory self "" target_directory new_name overwrite s
    = (Raised IndexError, s) ∧
  Container_delete_directory self "" s = (Raised IndexError, s).
Proof.
  intros Hb Hnd Hnone failed. subst failed.
  pose proof (dir_files_none self b nd Hnone) as Hfiles.
  repeat split.
  - unfold Container_copy_directory. rewrite Hnd. unfold bind at 1.
    by rewrite (Container_list_spec _ _ _ Hb), Hfiles.
  - unfold Container_move_directory. rewrite Hnd. unfold bind at 1.
    by rewrite (Container_list_spec _ _ _ Hb), Hfiles.
  - by apply (Container_delete_directory_missing self s b d nd).
Qed.

Lemma directory_operations_on_missing_directory_witness :
  Container_copy_directory sample_container "z" "t" None true scenario_state
    = (Raised (Exception_ no_directory_msg), set_metadata (Some ∅) scenario_state) ∧
  Container_move_directory sample_container "z" "t" None true scenario_state
    = (Raised (Exception_ no_directory_msg), set_metadata (Some ∅) scenario_state) ∧
  Container_delete_directory sample_container "z" scenario_state
    = (Raised (Exception_ no_directory_msg), set_metadata (Some ∅) scenario_state).
Proof.
  destruct (directory_operations_on_missing_directory sample_container scenario_state
              scenario_bucket "z" "z/" "t" None true eq_refl eq_refl)
    as (H1 & H2 & H3 & _).
  - intros k [o Ho]. unfold scenario_bucket in Ho. cbn [objects list_to_map foldr] in Ho.
    rewrite !lookup_insert in Ho. repeat case_decide; by subst.
  - repeat split; assumption.
Defined.

(** ** What a copy can change *)

Lemma startswith_sep_cons (x : ascii) (r : string) :
  PyStr.startswith (String x r) "/" = Ascii.eqb x "/".
Proof. cbn [PyStr.startswith]. destruct r; apply andb_true_r. Qed.

Lemma relative_join (a b : string) : relative a → relative b → relative (PyStr.join a b).
Proof.
  unfold relative, PyStr.join, PyStr.join_step. intros Ha Hb. rewrite Hb.
  destruct a as [|x a]; [exact Hb|]. rewrite startswith_sep_cons in Ha.
  destruct (PyStr.endswith_sep (String x a)); by rewrite app_cons, startswith_sep_cons.
Qed.

Lemma relative_name_or_basename (new_name : option string) (path : string) :
  relative (default EmptyString new_name) → relative (name_or_basename new_name path).
Proof.
  intros H. unfold name_or_basename. destruct (falsy new_name); [apply basename_relative|done].
Qed.


Lemma split_destination_container (c td nn : string) :
  plain_name c → relative td → relative nn →
  Swift.split_destination (PyStr.join3 c td nn)
    = match PyStr.join td nn with
      | EmptyString => None
      | key => Some (c, key)
      end.
Proof.
  intros Hc Htd Hnn. destruct (PyStr.join td nn) as [|x r] eqn:E.
  - rewrite join3_container, E by done. destruct Hc as (Hc & Hns & _).
    unfold Swift.split_destination. destruct c as [|y c]; [done|]. rewrite app_cons.
    assert (PyStr.is_sep y = false) as ->.
    { cbn [PyStr.contains] in Hns. by apply orb_false_elim in Hns as [? _]. }
    by rewrite <- app_cons, split_first_app.
  - rewrite <- E. apply split_destination_join3; [done..|]. by rewrite E.
Qed.

Lemma clean_key_not_empty (k : string) : clean_key k = true → k ≠ EmptyString.
Proof. intros H ->. discriminate H. Qed.

Section CopyEffect.

Variable self : Container.
Hypothesis Hname : plain_name (container_name self).

(** A copy to a clean key either leaves the account as it is or stores
    the source's object under the destination key, which the guard found
    free unless overwriting is allowed. *)
Lemma Container_copy_effect (file_path target_directory : string)
    (new_name : option string) (overwrite : bool) (s : State) (b : Bucket) :
  account s !! container_name self = Some b →
  relative target_directory → relative (name_or_basename new_name file_path) →
  let key := PyStr.join target_directory (name_or_basename new_name file_path) in
  clean_key key = true →
  ∃ s' : State,
    Container_copy self file_path target_directory new_name overwrite s = (Returned tt, s') ∧
    (account s' = account s ∨
     ∃ o, objects b !! file_path = Some o ∧ (overwrite = true ∨ objects b !! key = None) ∧
          account s' = <[container_name self := with_objects b (<[key := o]> (objects b))]>
                         (account s)).
Proof.
  intros Hb Htd Hnn key Hclean.
  destruct (objects b !! file_path) as [o|] eqn:Hsrc.
  - destruct (decide (overwrite = true ∨ objects b !! key = None)) as [Hg|Hg].
    + eexists. split.
      * apply (Container_copy_done self file_path target_directory new_name s b);
          [done..|by apply clean_key_not_empty|exact Hsrc|].
        destruct Hg as [Hg|Hg]; [by left|by right].
      * right. by exists o.
    + assert (overwrite = false ∧ is_Some (objects b !! key)) as [-> [old Hold]].
      { destruct overwrite; [exfalso; apply Hg; by left|].
        split; [done|]. destruct (objects b !! key); [by eexists|].
        exfalso. apply Hg. by right. }
      eexists. split.
      * apply (Container_copy_conflict self file_path target_directory new_name s
                 (Swift.object_headers old)).
        by apply (head_object_present self s b).
      * by left.
  - assert (∃ s', Container_copy self file_path target_directory new_name overwrite s
                  = (Returned tt, s') ∧ account s' = account s) as (s' & H & Hacc).
    { unfold Container_copy. cbv zeta. destruct (if overwrite then false else _).
      - by eexists.
      - rewrite copy_object_missing by (by rewrite (find_object_lookup _ _ _ _ Hb)).
        by eexists. }
    exists s'. split; [exact H|by left].
Qed.

End CopyEffect.

Section CopyPreserves.

Variable self : Container.
Hypothesis Hname : plain_name (container_name self).

(** [copy] without [overwrite] to a clean key below a relative target
    never raises and never changes or removes an object of the container:
    every key keeps its object, at most the destination key is new, and
    the other containers are untouched. *)
Theorem Container_copy_without_overwrite_preserves
    (file_path target_directory : string) (new_name : option string)
    (s : State) (b : Bucket) :
  account s !! container_name self = Some b →
  relative target_directory → relative (name_or_basename new_name file_path) →
  clean_key (PyStr.join target_directory (name_or_basename new_name file_path)) = true →
  ∃ s' : State,
    Container_copy self file_path target_directory new_name false s = (Returned tt, s') ∧
    (∀ k o, objects b !! k = Some o →
            Swift.find_object (account s') (container_name self) k = Some o) ∧
    (∀ k, is_Some (Swift.find_object (account s') (container_name self) k) →
          is_Some (objects b !! k) ∨
          k = PyStr.join target_directory (name_or_basename new_name file_path)) ∧
    (∀ c', c' ≠ container_name self → account s' !! c' = account s !! c').
Proof.
  intros Hb Htd Hnn Hclean.
  destruct (Container_copy_effect self Hname file_path target_directory new_name false
              s b Hb Htd Hnn Hclean)
    as (s' & Hcopy & [Hacc|(o & Hsrc & [Hg|Hfree] & Hacc)]);
    [|done|]; exists s'; (split; [exact Hcopy|]); rewrite Hacc.
  - split; [|split].
    + intros k o' Hk. by rewrite (find_object_lookup _ _ _ _ Hb).
    + intros k. rewrite (find_object_lookup _ _ _ _ Hb). by left.
    + done.
  - split; [|split].
    + intros k o' Hk. erewrite find_object_lookup by apply lookup_insert_eq.
      cbn [objects with_objects]. rewrite lookup_insert_ne; [done|]. intros <-. congruence.
    + intros k. erewrite find_object_lookup by apply lookup_insert_eq.
      cbn [objects with_objects]. rewrite lookup_insert. case_decide; [by right|by left].
    + intros c' Hc'. by rewrite lookup_insert_ne.
Qed.

Variable target : string.
Hypothesis Htarget : relative target.

Lemma copy_loop_preserves (fs : list File) (s : State) (b : Bucket) :
  account s !! container_name self = Some b →
  (∀ f, f ∈ fs → clean_key (flat_key target (name f)) = true) →
  ∃ (s' : State) (m' : gmap string Obj),
    for_each fs (λ f,
        (λ s, (Returned tt, logging INFO ("Filename: " +:+ name f) s)) ;;;
        Container_copy self (name f) target None false) s = (Returned tt, s') ∧
    account s' = <[container_name self := with_objects b m']> (account s) ∧
    ∀ k o, objects b !! k = Some o → m' !! k = Some o.
Proof.
  revert s b. induction fs as [|f fs IH]; intros s b Hb Hclean.
  - exists s, (objects b). split; [done|]. split; [|done].
    by rewrite with_objects_id, insert_id.
  - set (s0 := logging INFO ("Filename: " +:+ name f) s).
    destruct (Container_copy_effect self Hname (name f) target None false s0 b Hb Htarget
                (basename_relative (name f)) (Hclean f ltac:(by left)))
      as (s1 & Hcopy & Heff).
    assert (∃ m1, account s1 = <[container_name self := with_objects b m1]> (account s)
                  ∧ ∀ k o, objects b !! k = Some o → m1 !! k = Some o) as (m1 & Hacc1 & Hm1).
    { destruct Heff as [Hacc|(o & Hsrc & [Hg|Hfree] & Hacc)]; [|done|].
      - exists (objects b). split; [|done]. by rewrite Hacc, with_objects_id, insert_id.
      - eexists. split; [exact Hacc|]. intros k o' Hk.
        rewrite lookup_insert_ne; [done|]. intros <-. congruence. }
    destruct (IH s1 (with_objects b m1)) as (s' & m' & Hloop & Hacc & Hm').
    { rewrite Hacc1. apply lookup_insert_eq. }
    { intros f' Hf'. apply Hclean. by right. }
    exists s', m'. split; [|split].
    + cbn [for_each]. unfold bind at 1 2. fold s0. rewrite Hcopy. exact Hloop.
    + rewrite Hacc, Hacc1. by rewrite insert_insert_eq.
    + intros k o Hk. apply Hm'. cbn [objects with_objects]. by apply Hm1.
Qed.

End CopyPreserves.

(** [copy_directory] without [overwrite] into a relative target, when the
    keys it copies to are clean, whatever its outcome: every object that
    was in the container before the call is there afterwards, unchanged. *)
Theorem Container_copy_directory_without_overwrite_preserves
    (self : Container) (d target_directory : string) (new_name : option string)
    (s : State) (b : Bucket) :
  account s !! container_name self = Some b →
  plain_name (container_name self) →
  relative target_directory → relative (default EmptyString new_name) →
  (∀ nd k, normalize_directory d = Returned nd →
           is_Some (objects b !! k) → PyStr.startswith k nd = true →
           clean_key (flat_key (target_of target_directory new_name nd) k) = true) →
  ∀ k o, objects b !! k = Some o →
    Swift.find_object
      (account (Container_copy_directory self d target_directory new_name false s).2)
      (container_name self) k = Some o.
Proof.
  intros Hb Hname Htd Hnn Hclean k o Hk. unfold Container_copy_directory.
  destruct (normalize_directory d) as [nd|e] eqn:Hnd.
  2:{ cbn. by rewrite (find_object_lookup _ _ _ _ Hb). }
  unfold bind at 1. rewrite (Container_list_spec _ _ _ Hb).
  destruct (dir_files_of nd _) as [|f fs] eqn:Efs.
  { cbn. by rewrite (find_object_lookup _ _ _ _ Hb). }
  unfold bind at 1.
  assert (∀ f', f' ∈ f :: fs →
            clean_key (flat_key (target_of target_directory new_name nd) (name f')) = true)
    as Hfs.
  { intros f' Hf'. rewrite <- Efs in Hf'.
    assert (name f' ∈ name <$> dir_files_of nd (new_File self <$> Swift.listing b))
      as Hin by (apply list_elem_of_fmap; by exists f').
    apply dir_files_elem in Hin as [Hs Hp]. by apply (Hclean nd). }
  destruct (copy_loop_preserves self Hname
              (PyStr.join target_directory (name_or_basename new_name nd))
              (relative_join _ _ Htd (relative_name_or_basename _ _ Hnn)) (f :: fs)
              (logging INFO "***** Directory Copy Details *****"
                 (set_metadata (Some (headers b)) s)) b Hb Hfs)
    as (s' & m' & Hloop & Hacc & Hm').
  rewrite Hloop. cbn [snd]. rewrite Hacc.
  erewrite find_object_lookup by apply lookup_insert_eq. by apply Hm'.
Qed.

Lemma Container_copy_without_overwrite_preserves_witness :
  ∃ s' : State,
    Container_copy sample_container "src.txt" "x" (Some "new.txt") false conflict_state
      = (Returned tt, s') ∧
    (∀ k o, objects conflict_bucket !! k = Some o →
            Swift.find_object (account s') "c" k = Some o).
Proof.
  destruct (Container_copy_without_overwrite_preserves sample_container
              ltac:(split; [discriminate|split; reflexivity])
              "src.txt" "x" (Some "new.txt") conflict_state conflict_bucket
              eq_refl eq_refl eq_refl eq_refl) as (s' & Hcopy & Hkeep & _).
  exists s'. split; [exact Hcopy|exact Hkeep].
Defined.

Lemma Container_copy_directory_without_overwrite_preserves_witness :
  Swift.find_object
    (account (Container_copy_directory sample_container "a" "b" None false scenario_state).2)
    "c" "b/3.txt" = Some (sample_obj "text/plain" [Byte.x33]).
Proof.
  apply (Container_copy_directory_without_overwrite_preserves sample_container "a" "b" None
           scenario_state scenario_bucket eq_refl).
  - split; [discriminate|split; reflexivity].
  - reflexivity.
  - reflexivity.
  - intros nd k Hnd Hk Hp. injection Hnd as <-.
    scenario_keys Hk; first [discriminate Hp|reflexivity].
  - reflexivity.
Defined.

(** ** Copying and moving a directory without collisions *)

Section DirectoryLoops.

Variable self : Container.
Hypothesis Hname : plain_name (container_name self).
Variable target : string.
Hypothesis Htarget : relative target.
Hypothesis Hnonempty : target ≠ EmptyString.
Variable overwrite : bool.




End DirectoryLoops.



Section DirectoryWithoutCollisions.

Variable self : Container.
Variables (d nd target_directory : string) (new_name : option string).
Variables (s : State) (b : Bucket) (k0 : string).
Hypothesis Hb : account s !! container_name self = Some b.
Hypothesis Hname : plain_name (container_name self).
Hypothesis Htd : relative target_directory.
Hypothesis Htd_ne : target_directory ≠ EmptyString.
Hypothesis Hnn : relative (default EmptyString new_name).
Hypothesis Hnd : normalize_directory d = Returned nd.
Hypothesis Hk0 : is_Some (objects b !! k0).
Hypothesis Hp0 : PyStr.startswith k0 nd = true.

Let target : string := target_of target_directory new_name nd.

(** No two objects of the directory have the same last component. *)
Hypothesis Hdistinct :
  ∀ k1 k2, is_Some (objects b !! k1) → is_Some (objects b !! k2) →
    PyStr.startswith k1 nd = true → PyStr.startswith k2 nd = true →
    PyStr.basename k1 = PyStr.basename k2 → k1 = k2.

(** The keys the objects go to are free. *)
Hypothesis Hfree :
  ∀ k, is_Some (objects b !! k) → PyStr.startswith k nd = true →
    objects b !! flat_key target k = None.

Let fs : list File := dir_files_of nd (new_File self <$> Swift.listing b).







End DirectoryWithoutCollisions.



(** ** Moving and renaming one object *)

Section MoveExact.

Variable self : Container.
Variables (file_path target_directory : string) (new_name : option string).
Variables (s : State) (b : Bucket) (o : Obj).
Hypothesis Hb : account s !! container_name self = Some b.
Hypothesis Hsrc : objects b !! file_path = Some o.
Hypothesis Hname : plain_name (container_name self).
Hypothesis Htd : relative target_directory.
Hypothesis Hnn : relative (name_or_basename new_name file_path).

Let key : string :=
  PyStr.join target_directory (name_or_basename new_name file_path).

Hypothesis Hkey : key ≠ EmptyString.




End MoveExact.




Lemma name_or_basename_Some (new_name path : string) :
  new_name ≠ EmptyString → name_or_basename (Some new_name) path = new_name.
Proof. by destruct new_name. Qed.



(** ** Uploads that go through, and uploads that fail *)

Section UploadAll.

Variable server_put : string → list Byte.byte → Obj.
Variable self : Container.
Variable remote_directory : string.
Variable overwrite : bool.
Hypothesis Hname : plain_name (container_name self).

Lemma upload_loop_all (paths acc : list string) (s : State) (b : Bucket) :
  account s !! container_name self = Some b →
  (∀ p, p ∈ paths → is_Some (local_files s !! p)) →
  NoDup (remote_path_of remote_directory <$> paths) →
  (∀ p, p ∈ paths → clean_key (remote_path_of remote_directory p) = true) →
  overwrite = true ∨
    (∀ p, p ∈ paths → objects b !! remote_path_of remote_directory p = None) →
  ∃ (s' : State) (m' : gmap string Obj),
    upload_loop server_put self remote_directory overwrite paths acc s
      = (Returned (Some (acc ++ (remote_path_of remote_directory <$> paths))), s') ∧
    account s' = <[container_name self := with_objects b m']> (account s) ∧
    local_files s' = local_files s ∧ log s' = log s ∧
    (∀ p data, p ∈ paths → local_files s !! p = Some data →
       m' !! remote_path_of remote_directory p
         = Some (Swift.stored_object server_put (remote_path_of remote_directory p) data)) ∧
    (∀ k, k ∉ remote_path_of remote_directory <$> paths → m' !! k = objects b !! k).
Proof.
  revert acc s b. induction paths as [|p paths IH]; intros acc s b Hb Hlocal Hnd Hclean Hg.
  - exists s, (objects b). cbn [upload_loop fmap list_fmap]. rewrite app_nil_r.
    split; [done|]. split; [by rewrite with_objects_id, insert_id|].
    split; [done|]. split; [done|]. split; [|done]. by intros p data ?%not_elem_of_nil.
  - rewrite fmap_cons in Hnd. apply NoDup_cons in Hnd as [Hp Hnd].
    destruct (Hlocal p) as [data Hdata]; [by left|].
    pose proof (Hclean p ltac:(by left)) as Hcp.
    set (rp := remote_path_of remote_directory p) in *.
    set (b1 := with_objects b (<[rp := Swift.stored_object server_put rp data]> (objects b))).
    set (s1 := set_account (<[container_name self := b1]> (account s)) s).
    destruct (IH (acc ++ [rp]) s1 b1) as (s' & m' & Hloop & Hacc & Hlf & Hlog & Hup & Hkeep).
    { apply lookup_insert_eq. }
    { intros q Hq. apply Hlocal. by right. }
    { exact Hnd. }
    { intros q Hq. apply Hclean. by right. }
    { destruct Hg as [Hg|Hg]; [by left|right]. intros q Hq. subst b1.
      cbn [objects with_objects]. rewrite lookup_insert_ne; [apply Hg; by right|].
      intros E. apply Hp. subst rp. rewrite E. apply list_elem_of_fmap. by exists q. }
    exists s', m'. split; [|split; [|split; [|split; [|split]]]].
    + cbn [upload_loop]. fold (remote_path_of remote_directory p). fold rp.
      assert ((if overwrite then false
               else match Swift.head_object (account s) (container_name self) rp with
                    | Returned _ => true
                    | Raised _ => false
                    end) = false) as ->.
      { destruct Hg as [->|Hg]; [done|]. destruct overwrite; [done|].
        rewrite head_object_clean by done. rewrite (find_object_lookup _ _ _ _ Hb).
        by rewrite (Hg p ltac:(by left) : objects b !! rp = None). }
      rewrite Hdata, (put_object_clean _ _ _ _ _ b Hname Hcp Hb).
      fold b1. fold s1. rewrite Hloop. by rewrite <- app_assoc.
    + rewrite Hacc. subst s1 b1. cbn [account set_account]. by rewrite insert_insert_eq.
    + exact Hlf.
    + exact Hlog.
    + intros q dq Hq Hdq. apply elem_of_cons in Hq as [->|Hq].
      * rewrite Hkeep by exact Hp. subst b1. cbn [objects with_objects].
        rewrite lookup_insert_eq. subst rp. congruence.
      * by apply Hup.
    + intros k Hk. rewrite fmap_cons in Hk. apply not_elem_of_cons in Hk as [Hk1 Hk2].
      rewrite (Hkeep k Hk2). subst b1. cbn [objects with_objects].
      by rewrite lookup_insert_ne.
Qed.

(** When every local file exists, no two of them have the same remote
    path, the remote paths are clean keys and they are free (or
    [overwrite] is set), [upload] returns the remote paths in the order
    of the local paths, stores under each the local file's bytes, and
    leaves every other key as it was. *)
Theorem Container_upload_uploads_all
    (paths : list string) (s : State) (b : Bucket) :
  account s !! container_name self = Some b →
  (∀ p, p ∈ paths → is_Some (local_files s !! p)) →
  NoDup (remote_path_of remote_directory <$> paths) →
  (∀ p, p ∈ paths → clean_key (remote_path_of remote_directory p) = true) →
  overwrite = true ∨
    (∀ p, p ∈ paths → objects b !! remote_path_of remote_directory p = None) →
  ∃ s' : State,
    Container_upload server_put self (Paths paths) remote_directory overwrite s
      = (Returned (Some (remote_path_of remote_directory <$> paths)), s') ∧
    (∀ p data, p ∈ paths → local_files s !! p = Some data →
       (contents <$> Swift.find_object (account s') (container_name self)
                       (remote_path_of remote_directory p)) = Some data) ∧
    (∀ k, k ∉ remote_path_of remote_directory <$> paths →
       Swift.find_object (account s') (container_name self) k = objects b !! k).
Proof.
  intros Hb Hlocal Hnd Hclean Hg.
  destruct (upload_loop_all paths [] s b Hb Hlocal Hnd Hclean Hg)
    as (s' & m' & Hloop & Hacc & _ & _ & Hup & Hkeep).
  exists s'. split; [exact Hloop|]. rewrite Hacc. split.
  - intros p data Hp Hd. erewrite find_object_lookup by apply lookup_insert_eq.
    cbn [objects with_objects]. by rewrite (Hup p data Hp Hd).
  - intros k Hk. erewrite find_object_lookup by apply lookup_insert_eq. by apply Hkeep.
Qed.

(** A local path that cannot be opened makes [upload] raise [IOError]
    when the guard lets it through ([overwrite] is set, or the probe for
    its remote path fails): the files before it have been uploaded and
    stay uploaded, the files after it are not looked at. *)
Theorem Container_upload_missing_local_file
    (before : list string) (p : string) (later uploaded : list string) (s s1 : State) :
  Container_upload server_put self (Paths before) remote_directory overwrite s
    = (Returned (Some uploaded), s1) →
  local_files s1 !! p = None →
  overwrite = true ∨
    (∃ e, Swift.head_object (account s1) (container_name self)
            (remote_path_of remote_directory p) = Raised e) →
  Container_upload server_put self (Paths (before ++ p :: later)) remote_directory
      overwrite s
    = (Raised (IOError "No such file or directory"), s1).
Proof.
  unfold Container_upload. cbn [paths_of]. intros Hpre Hlocal Hg.
  rewrite (upload_loop_app _ _ _ _ _ _ _ _ _ _ Hpre). cbn [upload_loop].
  fold (remote_path_of remote_directory p). rewrite Hlocal.
  destruct Hg as [->|[e He]]; [done|]. rewrite He.
  by destruct overwrite.
Qed.

End UploadAll.

Lemma Container_upload_uploads_all_witness :
  ∃ s' : State,
    Container_upload sample_server_put sample_container
        (Paths ["local/a.txt"; "other/b.txt"]) "up" false upload_state
      = (Returned (Some ["up/a.txt"; "up/b.txt"]), s') ∧
    (contents <$> Swift.find_object (account s') "c" "up/b.txt") = Some [Byte.x63].
Proof.
  destruct (Container_upload_uploads_all sample_server_put sample_container "up" false
              ltac:(split; [discriminate|split; reflexivity])
              ["local/a.txt"; "other/b.txt"] upload_state
              {| headers := ∅; objects := ∅ |} eq_refl) as (s' & Hup & Hput & _).
  - intros p Hp. repeat (apply elem_of_cons in Hp as [->|Hp]; [by eexists|]).
    by apply not_elem_of_nil in Hp.
  - vm_compute. repeat constructor.
    + intros H. repeat (apply elem_of_cons in H as [H|H]; [discriminate H|]).
      by apply not_elem_of_nil in H.
    + intros H. by apply not_elem_of_nil in H.
  - intros p Hp. repeat (apply elem_of_cons in Hp as [->|Hp]; [reflexivity|]).
    by apply not_elem_of_nil in Hp.
  - right. intros p Hp. reflexivity.
  - exists s'. split; [exact Hup|]. apply (Hput "other/b.txt"); [|reflexivity].
    right. left.
Defined.

Lemma Container_upload_missing_local_file_witness :
  Container_upload sample_server_put sample_container
      (Paths ["local/a.txt"; "missing.txt"; "other/b.txt"]) "up" false upload_state
    = (Raised (IOError "No such file or directory"),
       (Container_upload sample_server_put sample_container (Paths ["local/a.txt"])
          "up" false upload_state).2).
Proof.
  apply (Container_upload_missing_local_file sample_server_put sample_container "up" false
           ["local/a.txt"] "missing.txt" ["other/b.txt"] ["up/a.txt"] upload_state).
  - vm_compute. reflexivity.
  - vm_compute. reflexivity.
  - right. eexists. vm_compute. reflexivity.
Defined.

(** ** Reading an access list *)

Lemma split_second_contains (c : ascii) (s : string) :
  PyStr.contains c s = false → PyStr.split c s !! 1%nat = None.
Proof. intros H. by rewrite split_plain. Qed.

Lemma scan_acl_only_IndexError (l : list string) (p : bool) (ids : list string) (e : exn) :
  scan_acl l p ids = Raised e → e = IndexError.
Proof.
  revert p ids. induction l as [|item l IH]; intros p ids; [done|]. cbn [scan_acl].
  destruct (str_in item _); [apply IH|].
  destruct (PyStr.split ":" item !! 1%nat); [apply IH|]. by intros [= <-].
Qed.

Lemma scan_acl_raises_iff (l : list string) (p : bool) (ids : list string) :
  scan_acl l p ids = Raised IndexError ↔ ∃ item, item ∈ l ∧ ¬ readable_entry item.
Proof.
  revert p ids. induction l as [|item l IH]; intros p ids.
  - split; [done|]. by intros (item & ?%not_elem_of_nil & _).
  - cbn [scan_acl]. destruct (str_in item [".r:*"; ".rlistings"]) eqn:Em.
    + rewrite IH. split.
      * intros (x & Hx & Hr). exists x. split; [by right|done].
      * intros (x & [->|Hx]%elem_of_cons & Hr); [|by exists x].
        exfalso. apply Hr. by left.
    + destruct (PyStr.contains ":" item) eqn:Ec.
      * destruct (contains_split_second _ _ Ec) as [u ->]. rewrite IH. split.
        -- intros (x & Hx & Hr). exists x. split; [by right|done].
        -- intros (x & [->|Hx]%elem_of_cons & Hr); [|by exists x].
           exfalso. apply Hr. by right.
      * rewrite (split_second_contains _ _ Ec). split; [|done].
        intros _. exists item. split; [by left|]. intros [?|?]; congruence.
Qed.

Lemma entry_ids_cons (item : string) (l : list string) :
  entry_ids (item :: l)
    = match (if is_marker item then None else PyStr.split ":" item !! 1%nat) with
      | Some u => u :: entry_ids l
      | None => entry_ids l
      end.
Proof. reflexivity. Qed.

Lemma scan_acl_closed_form (l : list string) (p : bool) (ids : list string) :
  (∀ item, item ∈ l → readable_entry item) →
  scan_acl l p ids = Returned (p || existsb is_marker l, ids ++ entry_ids l).
Proof.
  revert p ids. induction l as [|item l IH]; intros p ids Hl.
  - cbn. by rewrite orb_false_r, app_nil_r.
  - assert (∀ item, item ∈ l → readable_entry item) as Hl'
      by (intros ? ?; apply Hl; by right).
    rewrite entry_ids_cons. cbn [scan_acl existsb].
    change (str_in item [".r:*"; ".rlistings"]) with (is_marker item).
    destruct (is_marker item) eqn:Em.
    + rewrite (IH _ _ Hl'). by rewrite orb_true_r.
    + destruct (Hl item) as [Hs|Hc]; [by left|unfold is_marker in Em; congruence|].
      destruct (contains_split_second _ _ Hc) as [u ->].
      rewrite (IH _ _ Hl'). cbn [orb]. by rewrite <- app_assoc.
Qed.

Section AccessControlRead.

Variable bytes_decode : list Byte.byte → string → outcome string.
Variable self : Container.
Variables (cache : ProjectCache) (s : State) (b : Bucket).
Variable user_id_map : list (string * string).
Hypothesis Hb : account s !! container_name self = Some b.
Hypothesis Husers :
  (Project_users bytes_decode (container_project self) cache s).1.1 = Returned user_id_map.

Let read_items : list string := acl_items (raw_acl (metadata_of s b) "read").
Let write_items : list string := acl_items (raw_acl (metadata_of s b) "write").

Lemma show_acl_raises_iff (v : acl_value) :
  (∃ e, show_acl user_id_map v = Raised e) ↔
  ∃ item, item ∈ acl_items v ∧ ¬ readable_entry item.
Proof.
  unfold show_acl. rewrite <- (scan_acl_raises_iff _ false []).
  destruct (scan_acl (acl_items v) false []) as [[p ids]|e] eqn:E.
  - split; [by intros [? ?]|done].
  - apply scan_acl_only_IndexError in E as ->. split; [done|by eexists].
Qed.

Lemma Container_access_control_raises_iff :
  (∃ e, (Container_access_control bytes_decode self true cache s).1.1 = Raised e) ↔
  (∃ item, (item ∈ read_items ∨ item ∈ write_items) ∧ ¬ readable_entry item).
Proof.
  rewrite (Container_access_control_unfold bytes_decode self user_id_map cache s b Hb Husers).
  pose proof (show_acl_raises_iff (raw_acl (metadata_of s b) "read")) as Hr.
  pose proof (show_acl_raises_iff (raw_acl (metadata_of s b) "write")) as Hw.
  fold read_items in Hr. fold write_items in Hw.
  destruct (show_acl user_id_map (raw_acl (metadata_of s b) "read")) as [r|e].
  - destruct (show_acl user_id_map (raw_acl (metadata_of s b) "write")) as [w|e].
    + split; [by intros [? ?]|]. intros (item & [Hi|Hi] & Hbad).
      * destruct (proj2 Hr) as [? ?]; [by exists item|done].
      * destruct (proj2 Hw) as [? ?]; [by exists item|done].
    + split; [|by eexists]. intros _.
      destruct (proj1 Hw) as (item & Hi & Hbad); [by eexists|]. exists item. by split; [right|].
  - split; [|by eexists]. intros _.
    destruct (proj1 Hr) as (item & Hi & Hbad); [by eexists|]. exists item. by split; [left|].
Qed.

Lemma Container_access_control_IndexError_only (e : exn) :
  (Container_access_control bytes_decode self true cache s).1.1 = Raised e → e = IndexError.
Proof.
  rewrite (Container_access_control_unfold bytes_decode self user_id_map cache s b Hb Husers).
  unfold show_acl.
  destruct (scan_acl _ false []) as [[p ids]|e1] eqn:E1.
  - destruct (scan_acl (acl_items (raw_acl (metadata_of s b) "write")) false [])
      as [[p' ids']|e2] eqn:E2; [done|].
    cbn [fst]. intros [= <-]. by apply scan_acl_only_IndexError in E2.
  - cbn [fst]. intros [= <-]. by apply scan_acl_only_IndexError in E1.
Qed.

(** When the container exists and [Project.users] returns,
    [access_control()] raises exactly when an entry of the read or the
    write list is neither a public marker nor contains a colon, and the
    exception is then [IndexError]. *)
Theorem Container_access_control_raises :
  ((Container_access_control bytes_decode self true cache s).1.1 = Raised IndexError ↔
   (∃ item, (item ∈ read_items ∨ item ∈ write_items) ∧ ¬ readable_entry item)) ∧
  ∀ e, (Container_access_control bytes_decode self true cache s).1.1 = Raised e →
       e = IndexError.
Proof.
  split; [|apply Container_access_control_IndexError_only].
  rewrite <- Container_access_control_raises_iff. split; [by eexists|].
  intros [e He]. by rewrite (Container_access_control_IndexError_only e He) in He.
Qed.

(** When the container exists, [Project.users] returns the map and every
    entry is readable, [access_control()] returns for each mode the
    usernames of the entries in their order (an id that is not in the
    project's user map stays as it is) followed by one ["PUBLIC"] if the
    list has a public marker, wherever and however often. *)
Theorem Container_access_control_translation :
  (∀ item, item ∈ read_items ∨ item ∈ write_items → readable_entry item) →
  Container_access_control bytes_decode self true cache s
    = (Returned [("read", AclList (translated user_id_map read_items));
                 ("write", AclList (translated user_id_map write_items))],
       (Project_users bytes_decode (container_project self) cache s).1.2,
       set_metadata (Some (metadata_of s b)) s).
Proof.
  intros Hok.
  rewrite (Container_access_control_unfold bytes_decode self user_id_map cache s b Hb Husers).
  unfold show_acl. fold read_items. fold write_items.
  rewrite !scan_acl_closed_form by (intros; apply Hok; tauto).
  cbn [orb]. unfold translated.
  by destruct (existsb is_marker read_items), (existsb is_marker write_items);
    rewrite ?app_nil_r.
Qed.

End AccessControlRead.

Lemma Container_access_control_raises_witness :
  (Container_access_control sample_utf8 sample_container true sample_users_cache
     unreadable_acl_state).1.1
    = Raised IndexError.
Proof.
  apply (proj1 (Container_access_control_raises sample_utf8 sample_container
                  sample_users_cache unreadable_acl_state
                  {| headers := {[ "x-container-read" := "admin,p0:u2" ]};
                     objects := list_to_map [] |} sample_users eq_refl eq_refl)).
  exists "admin". split.
  - left. vm_compute. left.
  - intros [H|H]; vm_compute in H; discriminate H.
Defined.

Lemma Container_access_control_translation_witness :
  Container_access_control sample_utf8 sample_container true sample_users_cache acl_state
    = (Returned [("read", AclList ["bob"; "PUBLIC"]); ("write", AclList [])],
       sample_users_cache,
       set_metadata (Some {[ "x-container-read" := ".r:*,p0:u2" ]}) acl_state).
Proof.
  apply (Container_access_control_translation sample_utf8 sample_container
           sample_users_cache acl_state
           {| headers := {[ "x-container-read" := ".r:*,p0:u2" ]};
              objects := list_to_map [] |} sample_users eq_refl eq_refl).
  intros item [H|H]; vm_compute in H.
  - repeat (apply elem_of_cons in H as [->|H]; [(by left) || (by right)|]).
    by apply not_elem_of_nil in H.
  - by apply not_elem_of_nil in H.
Defined.

(** ** [Project.users] *)

Lemma get_account_elem (acc : gmap string Bucket) (n : string) :
  n ∈ get_account acc ↔ is_Some (acc !! n).
Proof.
  unfold get_account. rewrite merge_sort_Permutation, list_elem_of_fmap. split.
  - intros ([k v] & -> & Hin). apply elem_of_map_to_list in Hin. by exists v.
  - intros [v Hv]. exists (n, v). split; [done|]. by apply elem_of_map_to_list.
Qed.

Lemma dict_get_unit_keys {V : Type} (l : list string) (v : V) (n : string) :
  dict_get ((λ k, (k, v)) <$> l) n = if bool_decide (n ∈ l) then Some v else None.
Proof.
  induction l as [|k l IH]; [done|]. cbn [fmap list_fmap dict_get].
  destruct (String.eqb_spec k n) as [->|Hne].
  - by rewrite bool_decide_eq_true_2 by (by left).
  - rewrite IH. apply option_eq. intros x. repeat case_bool_decide; try done.
    + exfalso. by apply H0; right.
    + exfalso. apply elem_of_cons in H0 as [?|?]; [by subst|done].
Qed.

Lemma fresh_containers_lookup (cache : ProjectCache) (acc : gmap string Bucket) (n : string) :
  _containers cache = None →
  dict_get (Project_containers cache acc).1 n
    = if negb (endswith n "_versions") && bool_decide (is_Some (acc !! n))
      then Some None else None.
Proof.
  intros Hc. unfold Project_containers. rewrite Hc. cbn [fst].
  rewrite dict_get_unit_keys.
  destruct (negb (endswith n "_versions")) eqn:Ev; cbn [andb].
  - apply option_eq. intros x. repeat case_bool_decide; try done.
    + exfalso. apply H0. apply list_elem_of_In, filter_In in H as [H _].
      by apply list_elem_of_In, get_account_elem in H.
    + exfalso. apply H. apply list_elem_of_In, filter_In. split; [|done].
      by apply list_elem_of_In, get_account_elem.
  - rewrite bool_decide_eq_false_2; [done|].
    intros [_ H]%list_elem_of_In%filter_In. congruence.
Qed.

Lemma contains_app (c : ascii) (a b : string) :
  PyStr.contains c (a +:+ b) = PyStr.contains c a || PyStr.contains c b.
Proof.
  induction a as [|x a IH]; [done|]. rewrite app_cons. cbn [PyStr.contains].
  by rewrite IH, orb_assoc.
Qed.










Section UsersProperties.

Variable bytes_decode : list Byte.byte → string → outcome string.
Variable self : Project.



(** A project without a [project_info] container has the empty user map;
    nothing is read and nothing is raised. *)
Theorem Project_users_without_project_info (cache : ProjectCache) (s : State) :
  _user_id_map cache = None → _containers cache = None →
  account s !! "project_info" = None →
  (Project_users bytes_decode self cache s).1.1 = Returned [] ∧
  (Project_users bytes_decode self cache s).2 = s.
Proof.
  intros Hmap Hcont Hno.
  pose proof (fresh_containers_lookup cache (account s) "project_info" Hcont) as Hlook.
  rewrite bool_decide_eq_false_2 in Hlook by (rewrite Hno; by intros [? ?]).
  rewrite andb_false_r in Hlook.
  unfold Project_users. rewrite Hmap.
  destruct (Project_containers cache (account s)) as [d cache1]. cbn [fst] in Hlook.
  by rewrite Hlook.
Qed.

End UsersProperties.


Lemma Project_users_without_project_info_witness :
  (Project_users sample_utf8 sample_project fresh_cache upload_state).1.1 = Returned [] ∧
  (Project_users sample_utf8 sample_project fresh_cache upload_state).2 = upload_state.
Proof.
  apply (Project_users_without_project_info sample_utf8 sample_project fresh_cache
           upload_state); reflexivity.
Defined.

(** ** [Archive.find_container] *)


Section FindContainer.

Variable container : string.



End FindContainer.


(** ** [PublicContainer.read] and the parameters of a content type *)

Section PublicReadProperties.

Variable requests_get : string → Response.
Variable bytes_decode : list Byte.byte → string → outcome string.
Variables (url file_path : string) (accept : list string).

(** For a response whose [Content-Type] has one parameter,
    [PublicContainer.read] classifies the part before the semicolon: it
    decodes the body (with the encoding of [decode], not with the
    parameter) exactly when that part is textual, so
    ["application/json; charset=utf-8"] is decoded.  With two or more
    semicolons the unpacking of the split raises [ValueError]. *)
Theorem PublicContainer_read_content_type_parameter
    (r : Response) (ct param rest encoding : string) :
  requests_get (url +:+ "/" +:+ file_path) = r →
  ok r = true →
  PyStr.contains ";" ct = false → PyStr.contains ";" param = false →
  encoding ≠ EmptyString →
  (response_content_type r = Some (ct +:+ ";" +:+ param) →
     PublicContainer_read requests_get bytes_decode url file_path (DecodeWith encoding) accept
       = if is_text ct accept
         then decoded (bytes_decode (response_content r) encoding)
         else Returned (Raw (response_content r))) ∧
  (response_content_type r = Some (ct +:+ ";" +:+ param +:+ ";" +:+ rest) →
     PublicContainer_read requests_get bytes_decode url file_path (DecodeWith encoding) accept
       = Raised (ValueError "too many values to unpack (expected 2)")).
Proof.
  intros Hr Hok Hct Hparam Henc.
  assert (truthy (DecodeWith encoding) = true) as Htruthy by (by destruct encoding).
  unfold PublicContainer_read. rewrite Hr, Hok. split; intros ->.
  - change (";" +:+ param) with (String ";" param).
    rewrite contains_app. cbn [PyStr.contains]. rewrite Ascii.eqb_refl, orb_true_r.
    rewrite split_app, split_plain by done. rewrite Htruthy, andb_true_r.
    cbn [encoding_of]. destruct (is_text ct accept); [|done].
    by destruct (bytes_decode _ _).
  - change (";" +:+ param +:+ ";" +:+ rest) with (String ";" (param +:+ String ";" rest)).
    rewrite contains_app. cbn [PyStr.contains]. rewrite Ascii.eqb_refl, orb_true_r.
    rewrite !split_app by done.
    pose proof (split_not_nil ";" rest). by destruct (PyStr.split ";" rest).
Qed.

End PublicReadProperties.

Lemma PublicContainer_read_content_type_parameter_witness :
  PublicContainer_read sample_web sample_utf8 "https://object.example/v1/public" "data.json"
      (DecodeWith "utf-8") []
    = Returned (Text "{}").
Proof.
  apply (proj1 (PublicContainer_read_content_type_parameter sample_web sample_utf8
                  "https://object.example/v1/public" "data.json" []
                  {| ok := true; response_content := [Byte.x7b; Byte.x7d];
                     response_content_type := Some "application/json; charset=utf-8" |}
                  "application/json" " charset=utf-8" "" "utf-8"
                  eq_refl eq_refl eq_refl eq_refl ltac:(discriminate))).
  reflexivity.
Defined.

(** ** The overwrite guard and absolute targets *)





(** ** The overwrite guard and the path of a request *)

Lemma two_more_chars (a c : ascii) (k : string) : String a (String c k) ≠ k.
Proof.
  revert a c. induction k as [|x k IH]; intros a c E; [discriminate E|].
  injection E as _ E. by apply IH in E.
Qed.

(** A leading [./] is not part of the path the probe asks for. *)
Lemma resolve_dot (c k : string) :
  plain_name c → clean_key k = true →
  Swift.resolve c ("./" +:+ k) = Swift.ObjectAt c k.
Proof.
  intros (Hc & Hns & Hdot) Hk. unfold clean_key in Hk.
  apply andb_true_iff in Hk as [Hne Hk]. apply negb_true_iff in Hne.
  unfold Swift.resolve.
  change ("/" +:+ "./" +:+ k) with (String "/" ("." +:+ String "/" k)).
  rewrite (split_app "/" c _ Hns), (split_app "/" "." k eq_refl).
  assert (forallb (λ segment, negb (Swift.dot_segment segment)) (PyStr.split "/" k) = true)
    as Hall by exact Hk.
  pose proof (split_not_nil "/" k) as Hnil.
  assert (Swift.dot_segment (List.last (c :: "." :: PyStr.split "/" k) EmptyString) = false)
    as ->.
  { pose proof (last_forallb (λ segment, negb (Swift.dot_segment segment))
                  (PyStr.split "/" k) EmptyString Hnil Hall) as Hlast.
    apply negb_true_iff in Hlast.
    destruct (PyStr.split "/" k) as [|x l]; [done|exact Hlast]. }
  cbn [Swift.remove_path_dot_segments]. apply orb_false_elim in Hdot as [H1 H2].
  rewrite H1, H2. change (String.eqb "." ".") with true. cbn match.
  rewrite remove_path_dot_segments_plain by exact Hall. cbn [rev app].
  cbn [Swift.route]. rewrite str_join_split.
  destruct c; [done|]. destruct k; [discriminate Hne|done].
Qed.

(** [copy] into the directory [.] without [overwrite]: the copy goes to
    the key [./name] while the guard asks for [name]; when no object has
    the key [name], the object at [./name] is replaced by the source. *)
Theorem Container_copy_into_dot_overwrites
    (self : Container) (file_path new_name : string)
    (s : State) (b : Bucket) (o old : Obj) :
  account s !! container_name self = Some b →
  plain_name (container_name self) →
  objects b !! file_path = Some o → clean_key file_path = true →
  relative new_name → clean_key new_name = true →
  objects b !! new_name = None →
  objects b !! ("./" +:+ new_name) = Some old →
  ∃ s' : State,
    Container_copy self file_path "." (Some new_name) false s = (Returned tt, s') ∧
    Swift.find_object (account s') (container_name self) ("./" +:+ new_name) = Some o ∧
    Swift.find_object (account s') (container_name self) new_name = None.
Proof.
  intros Hb Hname Hsrc _ Hrel Hclean Hfree Hold.
  pose proof (clean_key_not_empty _ Hclean) as Hne.
  pose proof (name_or_basename_Some new_name file_path Hne) as Hnn.
  assert (PyStr.join "." new_name = "./" +:+ new_name) as Hkey.
  { unfold PyStr.join, PyStr.join_step. unfold relative in Hrel. by rewrite Hrel. }
  eexists. split; [|split].
  - unfold Container_copy. cbv zeta. rewrite Hnn, Hkey.
    unfold Swift.head_object. rewrite resolve_dot by done.
    rewrite (find_object_lookup _ _ _ _ Hb), Hfree.
    rewrite (copy_object_spec _ _ _ _ ("./" +:+ new_name) b o Hb Hsrc); [reflexivity|].
    rewrite <- Hkey. apply split_destination_join3; [done|done|exact Hrel|].
    by rewrite Hkey.
  - cbn [account logging set_account].
    erewrite find_object_lookup by apply lookup_insert_eq.
    cbn [objects with_objects]. apply lookup_insert_eq.
  - cbn [account logging set_account].
    erewrite find_object_lookup by apply lookup_insert_eq.
    cbn [objects with_objects]. rewrite lookup_insert_ne; [exact Hfree|].
    apply two_more_chars.
Qed.

Lemma Container_copy_into_dot_overwrites_witness :
  ∃ s' : State,
    Container_copy sample_container "src.txt" "." (Some "copy.txt") false dotted_state
      = (Returned tt, s') ∧
    Swift.find_object (account s') "c" "./copy.txt"
      = Some (sample_obj "text/plain" [Byte.x61]).
Proof.
  destruct (Container_copy_into_dot_overwrites sample_container "src.txt" "copy.txt"
              dotted_state dotted_bucket
              (sample_obj "text/plain" [Byte.x61]) (sample_obj "text/plain" [Byte.x62]))
    as (s' & Hcopy & Hnew & _).
  - reflexivity.
  - split; [discriminate|split; reflexivity].
  - reflexivity.
  - reflexivity.
  - reflexivity.
  - reflexivity.
  - reflexivity.
  - reflexivity.
  - exists s'. split; [exact Hcopy|exact Hnew].
Defined.

(** [upload] to the empty remote path (no remote directory and a local
    path without a last component) without [overwrite]: the probe is
    answered by the container, so the guard stops the call at once;
    nothing is opened and nothing is uploaded. *)
Theorem Container_upload_empty_remote_path
    (server_put : string → list Byte.byte → Obj) (self : Container)
    (p : string) (later : list string) (s : State) (b : Bucket) :
  account s !! container_name self = Some b →
  plain_name (container_name self) →
  PyStr.basename p = EmptyString →
  Container_upload server_put self (Paths (p :: later)) EmptyString false s
    = (Returned None,
       logging ERROR ("File: " +:+ p +:+ " not uploaded. Reason: " +:+ conflict_msg) s).
Proof.
  intros Hb Hname Hbase. unfold Container_upload. cbn [paths_of upload_loop].
  rewrite Hbase. change (PyStr.join "" "") with EmptyString.
  unfold Swift.head_object. by rewrite resolve_empty, Hb.
Qed.

Lemma Container_upload_empty_remote_path_witness :
  Container_upload sample_server_put sample_container (Paths ["local/"; "local/a.txt"])
      "" false upload_state
    = (Returned None,
       logging ERROR ("File: local/ not uploaded. Reason: " +:+ conflict_msg) upload_state).
Proof.
  apply (Container_upload_empty_remote_path sample_server_put sample_container "local/"
           ["local/a.txt"] upload_state {| headers := ∅; objects := ∅ |}).
  - reflexivity.
  - split; [discriminate|split; reflexivity].
  - reflexivity.
Defined.
